(** * Odyssey Management: the SMTP mail utility (src/utilities/smtp_client.py)

    A shallow embedding of [SMTPClient] and [EmailClient]: the message that
    the client keeps in [self._message], the file system the attachments are
    read from, the relay the client talks to and the exceptions that travel
    through [send_email] are explicit, so that every run of the Python code
    is a run of a function of this file. *)

From Stdlib Require Import String Ascii List NArith Lia Bool.
From Stdlib Require Strings.Byte.
From stdpp Require Import base option list strings gmap.

Local Open Scope string_scope.
Local Open Scope list_scope.

(** ** Python values and exceptions *)

(** What a call of [send_email] can hand back: a function body that ends
    without [return] yields [None]. *)
Inductive pyval :=
| PyNone
| PyBool (b : bool).

(** The exception classes that can occur in the module, with the class
    hierarchy of the builtins and of smtplib. *)
Inductive ExcClass :=
| BaseException_
| Exception_
| NameError
| RuntimeError
| ValueError
| OSError
| FileNotFoundError
| PermissionError
| IsADirectoryError
| SMTPEmailException
| SMTPException
| SMTPServerDisconnected
| SMTPNotSupportedError
| SMTPRecipientsRefused
| SMTPResponseException
| SMTPSenderRefused
| SMTPDataError
| SMTPConnectError
| SMTPHeloError
| SMTPAuthenticationError.

Global Instance ExcClass_eq_dec : EqDecision ExcClass.
Proof. solve_decision. Defined.

(** The direct base class ([class SMTPException(OSError)] and so on). *)
Definition base_class (c : ExcClass) : option ExcClass :=
  match c with
  | BaseException_ => None
  | Exception_ => Some BaseException_
  | NameError | RuntimeError | ValueError | OSError | SMTPEmailException =>
      Some Exception_
  | FileNotFoundError | PermissionError | IsADirectoryError | SMTPException =>
      Some OSError
  | SMTPServerDisconnected | SMTPNotSupportedError | SMTPRecipientsRefused
  | SMTPResponseException => Some SMTPException
  | SMTPSenderRefused | SMTPDataError | SMTPConnectError | SMTPHeloError
  | SMTPAuthenticationError => Some SMTPResponseException
  end.

(** [issubclass c d]; the hierarchy is five classes deep. *)
Fixpoint issubclass_fuel (fuel : nat) (c d : ExcClass) : bool :=
  if bool_decide (c = d) then true
  else match fuel, base_class c with
       | S fuel', Some b => issubclass_fuel fuel' b d
       | _, _ => false
       end.

Definition issubclass : ExcClass -> ExcClass -> bool := issubclass_fuel 5.

(** The name that [type(e)] shows for a class. *)
Definition class_name (c : ExcClass) : string :=
  match c with
  | BaseException_ => "BaseException"
  | Exception_ => "Exception"
  | NameError => "NameError"
  | RuntimeError => "RuntimeError"
  | ValueError => "ValueError"
  | OSError => "OSError"
  | FileNotFoundError => "FileNotFoundError"
  | PermissionError => "PermissionError"
  | IsADirectoryError => "IsADirectoryError"
  | SMTPEmailException => "SMTPEmailException"
  | SMTPException => "smtplib.SMTPException"
  | SMTPServerDisconnected => "smtplib.SMTPServerDisconnected"
  | SMTPNotSupportedError => "smtplib.SMTPNotSupportedError"
  | SMTPRecipientsRefused => "smtplib.SMTPRecipientsRefused"
  | SMTPResponseException => "smtplib.SMTPResponseException"
  | SMTPSenderRefused => "smtplib.SMTPSenderRefused"
  | SMTPDataError => "smtplib.SMTPDataError"
  | SMTPConnectError => "smtplib.SMTPConnectError"
  | SMTPHeloError => "smtplib.SMTPHeloError"
  | SMTPAuthenticationError => "smtplib.SMTPAuthenticationError"
  end.

Record exn := Exc { exc_class : ExcClass; exc_msg : string }.

Global Instance exn_eq_dec : EqDecision exn.
Proof. solve_decision. Defined.

(** [isinstance(e, d)], the test of an [except d] clause. *)
Definition isinstance (e : exn) (d : ExcClass) : bool :=
  issubclass (exc_class e) d.

(** ** Names

    What a bare name evaluates to inside the module: the builtins that the
    module uses and the names bound at module level by its imports, classes
    and, when it runs as a script, its [__main__] block. *)
Inductive pyobj :=
| ClassObj (c : ExcClass)
| OpaqueObj (name : string).

Definition builtins : list (string * pyobj) :=
  [ ("Exception", ClassObj Exception_);
    ("RuntimeError", ClassObj RuntimeError);
    ("ValueError", ClassObj ValueError);
    ("FileNotFoundError", ClassObj FileNotFoundError);
    ("NameError", ClassObj NameError);
    ("OSError", ClassObj OSError);
    ("print", OpaqueObj "print");
    ("open", OpaqueObj "open");
    ("str", OpaqueObj "str");
    ("type", OpaqueObj "type");
    ("bool", OpaqueObj "bool");
    ("list", OpaqueObj "list") ].

Definition module_globals : list (string * pyobj) :=
  [ ("os", OpaqueObj "os");
    ("smtplib", OpaqueObj "smtplib");
    ("ssl", OpaqueObj "ssl");
    ("Path", OpaqueObj "Path");
    ("StrEnum", OpaqueObj "StrEnum");
    ("dataclass", OpaqueObj "dataclass");
    ("field", OpaqueObj "field");
    ("encoders", OpaqueObj "encoders");
    ("Message", OpaqueObj "Message");
    ("MIMEText", OpaqueObj "MIMEText");
    ("MIMEBase", OpaqueObj "MIMEBase");
    ("MIMEMultipart", OpaqueObj "MIMEMultipart");
    ("SMTPServerConfig", OpaqueObj "SMTPServerConfig");
    ("EmailMessage", OpaqueObj "EmailMessage");
    ("SMTPEmailException", ClassObj SMTPEmailException);
    ("MIMESemantics", OpaqueObj "MIMESemantics");
    ("SMTPConfig", OpaqueObj "SMTPConfig");
    ("SMTPClient", OpaqueObj "SMTPClient");
    ("EmailClient", OpaqueObj "EmailClient");
    ("my_email_contents", OpaqueObj "my_email_contents");
    ("manasi_email_contents", OpaqueObj "manasi_email_contents");
    ("my_client", OpaqueObj "my_client");
    ("a", OpaqueObj "a") ].

(** Globals shadow builtins. *)
Definition namespace : gmap string pyobj :=
  list_to_map (module_globals ++ builtins).

(** ** Results and the state that a call threads *)

Inductive Res (A : Type) :=
| Ok (a : A)
| Raise (e : exn).
Arguments Ok {A} a.
Arguments Raise {A} e.

(** *** Mail structures of the email package *)

Definition Path := string.
Definition header := (string * string)%type.

Inductive payload :=
| NoPayload
| BytesPayload (bs : list Byte.byte)
| StrPayload (s : string).

(** A [MIMEBase] object: its headers in insertion order and its payload. *)
Record MIMEBase := {
  mb_headers : list header;
  mb_payload : payload
}.

(** A leaf part of the mail. [MIMEText(text, subtype)] is kept as the
    library builds it from its two arguments (the charset and the transfer
    encoding that the library derives from the text are not looked into).
    The texts of the model are strings of bytes, read as text that UTF-8
    can encode; for such a text the constructor does not raise. A Python
    string with a lone surrogate, which the constructor refuses with
    [UnicodeEncodeError], is not among them. *)
Inductive MIMEPart :=
| MIMEText (_text _subtype : string)
| BasePart (part : MIMEBase).

(** A [MIMEMultipart] object: headers in insertion order and the attached
    parts in attachment order. *)
Record MIMEMultipart := {
  mp_headers : list header;
  mp_payload : list MIMEPart
}.

Global Instance byte_eq_dec : EqDecision Byte.byte := Byte.byte_eq_dec.
Global Instance payload_eq_dec : EqDecision payload.
Proof. solve_decision. Defined.
Global Instance MIMEBase_eq_dec : EqDecision MIMEBase.
Proof. solve_decision. Defined.
Global Instance MIMEPart_eq_dec : EqDecision MIMEPart.
Proof. solve_decision. Defined.
Global Instance MIMEMultipart_eq_dec : EqDecision MIMEMultipart.
Proof. solve_decision. Defined.

(** *** The outside world *)

(** What a path refers to. A path that is not in the map does not exist:
    [exists()] is false for it. [File data] is a file that can be opened
    and read. [OpenFails e] is a path that [exists()] finds and that
    [open(file, "rb")] refuses with the [OSError] [e] of the system (a file
    without read permission, a directory). [StatFails e] is a path for
    which [exists()] itself raises [e]: pathlib passes on every error of
    the system other than the ones that mean that the path is not there
    (no access to a parent directory, a name that is too long). The
    exceptions are those of the system, text included. *)
Inductive fs_entry :=
| File (data : list Byte.byte)
| OpenFails (e : exn)
| StatFails (e : exn).

Definition FileSystem := gmap Path fs_entry.

(** How the relay answers a QUIT that reaches it: with code 221, with
    another code and a text ([reply] is what [str] shows of the exception,
    code and text), or not at all. *)
Inductive quit_reply :=
| QuitOk
| QuitBadCode (reply : string)
| QuitDisconnected.

(** A scripted relay: for each step of the dialogue, the exception that
    smtplib raises there, if any. The relay answers every step; one that
    stays silent for ever, which the call would wait for as no timeout is
    set, is not among the relays of the model. *)
Record Relay := {
  on_connect : option exn;
  on_login : option exn;
  on_sendmail : option exn;
  on_quit : quit_reply
}.

(** What the client does on the network. [Connect] is the attempt to open
    the encrypted socket, [Login] the start of the login, [Quit] the QUIT
    command written to the socket, and [Close] the closing of an open
    socket by smtplib's [close()]. *)
Inductive NetEvent :=
| Connect (host port : string)
| Login (user password : string)
| SendMail (from_addr : string) (to_addrs msg : pyobj)
| Quit
| Close.

Global Instance pyobj_eq_dec : EqDecision pyobj.
Proof. solve_decision. Defined.
Global Instance NetEvent_eq_dec : EqDecision NetEvent.
Proof. solve_decision. Defined.

Definition is_SendMail (ev : NetEvent) : bool :=
  match ev with SendMail _ _ _ => true | _ => false end.

(** *** Configuration and message values *)

Module SMTPServerConfig.
Definition SMTP_SERVER : string := "smtp.gmail.com".
Definition SMTP_PORT : string := "465".
Definition SECURITY_CONTRACT : string := "SSL".
End SMTPServerConfig.

Module MIMESemantics.
Definition MULTIPART_ENTRY : string := "alternative".
Definition SUBJECT : string := "Subject".
Definition FROM : string := "From".
Definition TO : string := "To".
Definition PLAIN_TEXT : string := "plain".
Definition HTML : string := "html".
End MIMESemantics.

Record EmailMessage := {
  destination_email_address : string;
  subject : string;
  plain_text_body : string;
  html_body : string;
  attachments : list Path
}.

Record SMTPConfig := {
  sender_email_address : string;
  google_smtp_app_passwd : string;
  smtp_server : string;
  smtp_port : string;
  security_contract : string
}.

(** The attributes of an [SMTPClient] object. *)
Record SMTPClient_obj := {
  _cfg : SMTPConfig;
  _message : MIMEMultipart
}.

(** The client object together with what the process has done so far on the
    network and on standard output. *)
Record State := {
  self : SMTPClient_obj;
  wire : list NetEvent;
  stdout : list string
}.

(** ** The monad of the embedding: state and exceptions *)

Definition M (A : Type) : Type := State -> Res A * State.

Definition ret {A} (a : A) : M A := fun s => (Ok a, s).
Definition raise {A} (e : exn) : M A := fun s => (Raise e, s).
Definition bind {A B} (m : M A) (k : A -> M B) : M B :=
  fun s => match m s with
           | (Ok a, s') => k a s'
           | (Raise e, s') => (Raise e, s')
           end.

(** [try: m] followed by one handler for whatever [m] raises. *)
Definition try_except {A} (m : M A) (h : exn -> M A) : M A :=
  fun s => match m s with
           | (Ok a, s') => (Ok a, s')
           | (Raise e, s') => h e s'
           end.

Declare Scope py_scope.
Delimit Scope py_scope with py.
Notation "x <- c1 ;;; c2" := (bind c1 (fun x => c2))
  (at level 100, c1 at next level, right associativity) : py_scope.
Notation "c1 ;;; c2" := (bind c1 (fun _ => c2))
  (at level 100, right associativity) : py_scope.
Local Open Scope py_scope.

Definition get_message : M MIMEMultipart :=
  fun s => (Ok (_message (self s)), s).
Definition get_cfg : M SMTPConfig :=
  fun s => (Ok (_cfg (self s)), s).
Definition set_message (m : MIMEMultipart) : M unit :=
  fun s => (Ok tt, {| self := {| _cfg := _cfg (self s); _message := m |};
                      wire := wire s; stdout := stdout s |}).
Definition emit (ev : NetEvent) : M unit :=
  fun s => (Ok tt, {| self := self s; wire := wire s ++ [ev];
                      stdout := stdout s |}).
Definition print (line : string) : M unit :=
  fun s => (Ok tt, {| self := self s; wire := wire s;
                      stdout := stdout s ++ [line] |}).

(** Evaluating a bare name: [NameError] when nothing binds it. *)
Definition load_name (n : string) : M pyobj :=
  match namespace !! n with
  | Some o => ret o
  | None => raise (Exc NameError ("name '" +:+ n +:+ "' is not defined"))
  end.

(** [raise Name(msg)]: the name is looked up, the class called and the
    instance raised. *)
Definition raise_named {A} (name msg : string) : M A :=
  o <- load_name name ;;;
  match o with
  | ClassObj c => raise (Exc c msg)
  | OpaqueObj _ => raise (Exc Exception_ msg)
  end.

(** ** Library functions the module calls *)

(** *** base64 *)

Module base64.

Definition alphabet : string :=
  "ABCDEFGHIJKLMNOPQRSTUVWXYZabcdefghijklmnopqrstuvwxyz0123456789+/".

Definition digit (n : N) : ascii :=
  match String.get (N.to_nat n) alphabet with
  | Some c => c
  | None => "="%char
  end.

Definition newline : string := String "010"%char EmptyString.

(** The base64 text of a byte string, three bytes to four digits, padded
    with [=]. *)
Fixpoint quads (bs : list Byte.byte) : string :=
  match bs with
  | [] => EmptyString
  | [a] =>
      let x := Byte.to_N a in
      String (digit (x / 4)) (String (digit ((x mod 4) * 16)) "==")
  | [a; b] =>
      let x := Byte.to_N a in
      let y := Byte.to_N b in
      String (digit (x / 4))
        (String (digit ((x mod 4) * 16 + y / 16))
           (String (digit ((y mod 16) * 4)) "="))
  | a :: b :: c :: rest =>
      let x := Byte.to_N a in
      let y := Byte.to_N b in
      let z := Byte.to_N c in
      String (digit (x / 4))
        (String (digit ((x mod 4) * 16 + y / 16))
           (String (digit ((y mod 16) * 4 + z / 64))
              (String (digit (z mod 64)) (quads rest))))
  end%N.

(** [binascii.b2a_base64]: one line, ended by a newline. *)
Definition b2a_base64 (bs : list Byte.byte) : string := quads bs +:+ newline.

Definition MAXBINSIZE : nat := 57.

(** The slices [s[i : i + MAXBINSIZE]] for [i] in
    [range(0, len(s), MAXBINSIZE)]; [len(s)] turns are enough. *)
Fixpoint pieces (fuel : nat) (s : list Byte.byte) : list (list Byte.byte) :=
  match fuel, s with
  | _, [] => []
  | O, _ => []
  | S fuel', _ => take MAXBINSIZE s :: pieces fuel' (drop MAXBINSIZE s)
  end.

(** [base64.encodebytes] *)
Definition encodebytes (s : list Byte.byte) : string :=
  String.concat EmptyString (map b2a_base64 (pieces (length s) s)).

End base64.

(** *** email.message and email.mime *)

(** [MIMEMultipart(_subtype)]: the constructor sets Content-Type and
    MIME-Version and starts with no parts. *)
Definition MIMEMultipart_new (_subtype : string) : MIMEMultipart :=
  {| mp_headers := [("Content-Type", "multipart/" +:+ _subtype);
                    ("MIME-Version", "1.0")];
     mp_payload := [] |}.

(** [Message.__len__]: the number of headers. It is what [not msg] tests,
    as the class defines no [__bool__]. *)
Definition Message_len (msg : MIMEMultipart) : nat := length (mp_headers msg).
Definition Message_truthy (msg : MIMEMultipart) : bool :=
  negb (Message_len msg =? 0)%nat.

(** [msg[name] = val]: under the default policy the header is appended,
    also when a header of that name is there already. *)
Definition Message_setitem (name val : string) (msg : MIMEMultipart)
  : MIMEMultipart :=
  {| mp_headers := mp_headers msg ++ [(name, val)];
     mp_payload := mp_payload msg |}.

(** [msg.attach(part)] *)
Definition Message_attach (part : MIMEPart) (msg : MIMEMultipart)
  : MIMEMultipart :=
  {| mp_headers := mp_headers msg;
     mp_payload := mp_payload msg ++ [part] |}.

(** [MIMEBase(_maintype, _subtype)] *)
Definition MIMEBase_new (_maintype _subtype : string) : MIMEBase :=
  {| mb_headers := [("Content-Type", _maintype +:+ "/" +:+ _subtype);
                    ("MIME-Version", "1.0")];
     mb_payload := NoPayload |}.

(** [part.set_payload(data)] with [data] the bytes read from the file *)
Definition set_payload (data : list Byte.byte) (part : MIMEBase) : MIMEBase :=
  {| mb_headers := mb_headers part; mb_payload := BytesPayload data |}.

(** [encoders.encode_base64(part)]: the payload becomes its base64 text and
    the transfer encoding is recorded. The module calls it on a part whose
    payload is the bytes of a file. *)
Definition encode_base64 (part : MIMEBase) : MIMEBase :=
  match mb_payload part with
  | BytesPayload data =>
      {| mb_headers := mb_headers part ++
                         [("Content-Transfer-Encoding", "base64")];
         mb_payload := StrPayload (base64.encodebytes data) |}
  | _ => part
  end.

(** [part.add_header(_name, _value)] *)
Definition add_header (_name _value : string) (part : MIMEBase) : MIMEBase :=
  {| mb_headers := mb_headers part ++ [(_name, _value)];
     mb_payload := mb_payload part |}.

(** *** pathlib, open and os *)

(** [file.exists()]: true for a path that is there, false for one that is
    not, and the error of the system where the path cannot be looked at. *)
Definition Path_exists (fs : FileSystem) (file : Path) : M bool :=
  match fs !! file with
  | None => ret false
  | Some (StatFails e) => raise e
  | Some (File _) | Some (OpenFails _) => ret true
  end.

(** The text of the [FileNotFoundError] of [open] for a name that [repr]
    shows as it is between single quotes. The module opens a path only
    after [exists()] has found it, so this error is not met there. *)
Definition ENOENT_text (file : Path) : string :=
  "[Errno 2] No such file or directory: '" +:+ file +:+ "'".

(** [open(file, "rb")] followed by [read()]. A path that cannot be looked
    at cannot be opened either. *)
Definition open_read (fs : FileSystem) (file : Path) : M (list Byte.byte) :=
  match fs !! file with
  | Some (File data) => ret data
  | Some (OpenFails e) | Some (StatFails e) => raise e
  | None => raise (Exc FileNotFoundError (ENOENT_text file))
  end.

(** [os.getenv(key, default)] *)
Definition getenv (environ : gmap string string) (key default : string)
  : string :=
  match environ !! key with
  | Some v => v
  | None => default
  end.

(** *** smtplib *)

Section Smtplib.
Variable relay : Relay.

(** smtplib closes the socket itself before it raises in two cases: when
    it finds the connection lost ([SMTPServerDisconnected]) and when a line
    of a reply is too long ([SMTPResponseException] itself, with code 500;
    the errors for a reply with a bad code are of its subclasses, or come
    from [__exit__]). *)
Definition lost_connection (e : exn) : bool :=
  bool_decide (exc_class e = SMTPServerDisconnected) ||
  bool_decide (exc_class e = SMTPResponseException).

(** While connecting, smtplib also closes the socket before it raises
    [SMTPConnectError] for a greeting other than 220. An error of the
    socket itself (no route, a refused connection, a failed handshake)
    leaves smtplib no socket to close. *)
Definition refused_greeting (e : exn) : bool :=
  bool_decide (exc_class e = SMTPConnectError) || lost_connection e.

(** Whether [self.sock] is set after these events: it is set by a connection
    and unset by [close()]. It is asked for in [__exit__] only, that is
    after a [Connect] that succeeded. *)
Fixpoint sock_after (open : bool) (evs : list NetEvent) : bool :=
  match evs with
  | [] => open
  | Connect _ _ :: evs' => sock_after true evs'
  | Close :: evs' => sock_after false evs'
  | _ :: evs' => sock_after open evs'
  end.

Definition sock_open : M bool :=
  fun s => (Ok (sock_after false (wire s)), s).

(** A command of the dialogue: when the connection is found lost the
    socket is closed before the exception is raised. *)
Definition command (ev : NetEvent) (r : option exn) : M unit :=
  emit ev ;;;
  match r with
  | None => ret tt
  | Some e => (if lost_connection e then emit Close else ret tt) ;;; raise e
  end.

(** [smtplib.SMTP_SSL(host, port, context=...)]: the constructor connects
    and reads the greeting. The context is the default one of [ssl], which
    is taken to be built without an error. *)
Definition SMTP_SSL (host port : string) : M unit :=
  emit (Connect host port) ;;;
  match on_connect relay with
  | None => ret tt
  | Some e => (if refused_greeting e then emit Close else ret tt) ;;; raise e
  end.

Definition login (user password : string) : M unit :=
  command (Login user password) (on_login relay).

Definition sendmail (from_addr : string) (to_addrs msg : pyobj) : M unit :=
  command (SendMail from_addr to_addrs msg) (on_sendmail relay).

(** [SMTP.__exit__]. With a socket, QUIT is written; a reply other than 221
    raises [SMTPResponseException], a connection lost on the way is passed
    over, and the socket is closed in every case. Without a socket, the
    connection having been lost before, nothing is written: [send] raises
    [SMTPServerDisconnected], which is passed over, and [close()] finds
    nothing to close. *)
Definition SMTP_exit : M unit :=
  connected <- sock_open ;;;
  if connected then
    emit Quit ;;;
    emit Close ;;;
    match on_quit relay with
    | QuitOk | QuitDisconnected => ret tt
    | QuitBadCode reply => raise (Exc SMTPResponseException reply)
    end
  else ret tt.

(** [with SMTP_SSL(host, port, ...) as smtp_server: body]. [__exit__] runs
    on both ways out of the body and returns nothing, so an exception of
    the body goes on, unless [__exit__] raises one itself. *)
Definition with_SMTP_SSL {A} (host port : string) (body : M A) : M A :=
  SMTP_SSL host port ;;;
  fun s => match body s with
           | (Ok a, s') => (SMTP_exit ;;; ret a) s'
           | (Raise e, s') => (SMTP_exit ;;; raise e) s'
           end.

End Smtplib.

(** ** class SMTPClient *)

Module SMTPClient.

Definition _SENDER_EMAIL_ADDRESS : string := "SENDER_EMAIL_ADDRESS".
Definition _GOOGLE_SMTP_APP_PASS : string := "GOOGLE_SMTP_APP_PASS".

(** [__init__]: the configuration is read from the environment, a missing
    variable reads as the empty string, and one multipart message is made
    for the lifetime of the object. Nothing in the body can raise. *)
Definition __init__ (environ : gmap string string) : SMTPClient_obj :=
  {| _cfg := {| sender_email_address :=
                  getenv environ _SENDER_EMAIL_ADDRESS "";
                google_smtp_app_passwd :=
                  getenv environ _GOOGLE_SMTP_APP_PASS "";
                smtp_server := SMTPServerConfig.SMTP_SERVER;
                smtp_port := SMTPServerConfig.SMTP_PORT;
                security_contract := SMTPServerConfig.SECURITY_CONTRACT |};
     _message := MIMEMultipart_new MIMESemantics.MULTIPART_ENTRY |}.

(** [x is None] for a value of [os.getenv(key, "")], which is a string. *)
Definition is_None (x : string) : bool := false.

(** [__post_init__]: a method like any other here, as the class is not a
    dataclass; nothing in the module calls it. *)
Definition __post_init__ (self : SMTPClient_obj) : Res unit :=
  if is_None (sender_email_address (_cfg self)) then
    Raise (Exc ValueError
             ("SMTPClient: Could Not Find sender_email_address; " +:+
              sender_email_address (_cfg self)))
  else if is_None (google_smtp_app_passwd (_cfg self)) then
    Raise (Exc ValueError
             "SMTPClient: Could Not find Google SMTP Server Passwd")
  else Ok tt.

(** [SMTPClient()]: a new object is made and [__init__] runs on it; the
    call hands the object back unless [__init__] raised. *)
Definition new (environ : gmap string string) : Res SMTPClient_obj :=
  Ok (__init__ environ).

(** [not s] for a string *)
Definition str_falsy (s : string) : bool := bool_decide (s = "").

Definition _init_MIMEMultipart_email
    (subject destination_email_address plain_text_body html_body : string)
  : M unit :=
  (if str_falsy plain_text_body then
     raise_named "RunTimeError"
       "Must Specify a plain text alternative to Email Contents"
   else ret tt) ;;;
  (if str_falsy html_body then
     raise_named "RuntTimeError" "Must Specify a HTML body to Email Contents"
   else ret tt) ;;;
  (if str_falsy subject then
     raise_named "RuntTimeError" "Must Specify subject in Email Contents"
   else ret tt) ;;;
  msg <- get_message ;;;
  (if negb (Message_truthy msg) then
     set_message (MIMEMultipart_new MIMESemantics.MULTIPART_ENTRY)
   else ret tt) ;;;
  msg <- get_message ;;;
  set_message (Message_setitem MIMESemantics.SUBJECT subject msg) ;;;
  cfg <- get_cfg ;;;
  msg <- get_message ;;;
  set_message
    (Message_setitem MIMESemantics.FROM (sender_email_address cfg) msg) ;;;
  msg <- get_message ;;;
  set_message
    (Message_setitem MIMESemantics.TO destination_email_address msg) ;;;
  let text_part := MIMEText plain_text_body MIMESemantics.PLAIN_TEXT in
  let html_part := MIMEText html_body MIMESemantics.HTML in
  msg <- get_message ;;;
  set_message (Message_attach text_part msg) ;;;
  msg <- get_message ;;;
  set_message (Message_attach html_part msg).

Section WithWorld.
Variable fs : FileSystem.
Variable relay : Relay.

(** The body of the loop of [_add_attachments] for one file. *)
Definition add_attachment (file : Path) : M unit :=
  found <- Path_exists fs file ;;;
  (if negb found then
     raise_named "FileNotFoundError" ("Could not find file: " +:+ file)
   else ret tt) ;;;
  data <- open_read fs file ;;;
  let part := MIMEBase_new "application" "octet-stream" in
  let part := set_payload data part in
  let part := encode_base64 part in
  let part := add_header "Content" ("attachment; filename = " +:+ file) part in
  msg <- get_message ;;;
  set_message (Message_attach (BasePart part) msg).

Fixpoint _add_attachments (files : list Path) : M unit :=
  match files with
  | [] => ret tt
  | file :: files' => add_attachment file ;;; _add_attachments files'
  end.

(** The text of [{type(e)}: {e}] in the lines that the handlers print. *)
Definition type_and_str (e : exn) : string :=
  "<class '" +:+ class_name (exc_class e) +:+ "'>: " +:+ exc_msg e.

(** The chain of [except] clauses of [send_email]; the first clause whose
    class the exception is an instance of prints its line. *)
Definition handlers (e : exn) : M unit :=
  if isinstance e SMTPConnectError then
    print ("Error Connecting to server. " +:+ type_and_str e)
  else if isinstance e SMTPAuthenticationError then
    print ("Error with Server Auth. " +:+ type_and_str e)
  else if isinstance e SMTPSenderRefused then
    print ("Sender Email Address Refused to comply. " +:+ type_and_str e)
  else if isinstance e SMTPException then
    print ("Error with SMTP Operation. " +:+ type_and_str e)
  else if isinstance e Exception_ then
    print ("Exception raised in SMTPClient.send_email() instance. " +:+
           exc_msg e)
  else raise e.

(** The [try] statement of [send_email]. Inside the [with] block the two
    names [receiver_email] and [message] are evaluated as the arguments of
    [sendmail], after [self._cfg.sender_email_address] and before the
    call. *)
Definition deliver : M unit :=
  try_except
    (cfg <- get_cfg ;;;
     with_SMTP_SSL relay (smtp_server cfg) (smtp_port cfg)
       (login relay (sender_email_address cfg)
                    (google_smtp_app_passwd cfg) ;;;
        receiver_email <- load_name "receiver_email" ;;;
        message <- load_name "message" ;;;
        sendmail relay (sender_email_address cfg) receiver_email message))
    handlers.

(** [not xs] for a list *)
Definition list_truthy {A} (xs : list A) : bool :=
  match xs with [] => false | _ => true end.

(** [send_email]. [None] is the argument [None]; an [EmailMessage] is an
    object of a class without [__bool__] and [__len__], so it is true. The
    body has no [return]: a call that does not raise yields [None]. *)
Definition send_email (email_contents : option EmailMessage) : M pyval :=
  match email_contents with
  | None =>
      raise_named "SMTPEmailException"
        "Must Specify Message Contents for Mail Transfer"
  | Some email_contents =>
      _init_MIMEMultipart_email
        (subject email_contents)
        (destination_email_address email_contents)
        (plain_text_body email_contents)
        (html_body email_contents) ;;;
      (if list_truthy (attachments email_contents) then
         _add_attachments (attachments email_contents)
       else ret tt) ;;;
      deliver ;;;
      ret PyNone
  end.

End WithWorld.

End SMTPClient.

(** ** class EmailClient *)

Module EmailClient.

(** [__init__]: the facade owns one [SMTPClient]; the object has no other
    attribute, so its state is that of its client. *)
Definition __init__ (environ : gmap string string) : Res SMTPClient_obj :=
  SMTPClient.new environ.

(** [send_email], for whatever object [self._client] holds: the call is made
    and its value is left where it is; the body ends without [return]. *)
Section Delegation.
Variable client_send_email : option EmailMessage -> M pyval.

Definition send_email_via (email_message : option EmailMessage) : M pyval :=
  client_send_email email_message ;;;
  ret PyNone.

End Delegation.

(** [send_email] of the facade as the module builds it, over an
    [SMTPClient]. *)
Definition send_email (fs : FileSystem) (relay : Relay)
    (email_message : option EmailMessage) : M pyval :=
  send_email_via (SMTPClient.send_email fs relay) email_message.

End EmailClient.

(** ** Running a client *)

(** An environment that holds both variables. *)
Definition environ_ok : gmap string string :=
  {[ "SENDER_EMAIL_ADDRESS" := "odyssey@example.com";
     "GOOGLE_SMTP_APP_PASS" := "app-secret" ]}.

(** The state of a process that has just built its client. *)
Definition boot (client : SMTPClient_obj) : State :=
  {| self := client; wire := []; stdout := [] |}.

(** A process that has just built its client from [environ_ok]. *)
Definition fresh : State := boot (SMTPClient.__init__ environ_ok).

(** A file system without any file. *)
Definition fs_empty : FileSystem := ∅.

Definition relay_accepting : Relay :=
  {| on_connect := None; on_login := None; on_sendmail := None;
     on_quit := QuitOk |}.

Definition relay_rejecting_login : Relay :=
  {| on_connect := None;
     on_login := Some (Exc SMTPAuthenticationError
                         "(535, b'5.7.8 Username and Password not accepted')");
     on_sendmail := None;
     on_quit := QuitOk |}.

(** The message of the scenarios: one recipient, no attachment. *)
Definition hello : EmailMessage :=
  {| destination_email_address := "a@example.com";
     subject := "Hi";
     plain_text_body := "hello";
     html_body := "<p>hello</p>";
     attachments := [] |}.

(** A second message, to another recipient. *)
Definition goodbye : EmailMessage :=
  {| destination_email_address := "b@example.com";
     subject := "Bye";
     plain_text_body := "goodbye";
     html_body := "<p>goodbye</p>";
     attachments := [] |}.

(** ** What the claims speak of *)

(** A message is well formed when its subject and both bodies are not
    empty. *)
Definition well_formed (m : EmailMessage) : Prop :=
  subject m <> "" /\ plain_text_body m <> "" /\ html_body m <> "".

(** The path refers to a file that exists and can be read. *)
Definition readable (fs : FileSystem) (file : Path) : Prop :=
  exists data, fs !! file = Some (File data).

(** The part that [_add_attachments] builds for a file with these bytes. *)
Definition attachment_part (file : Path) (data : list Byte.byte) : MIMEPart :=
  BasePart
    {| mb_headers := [("Content-Type", "application/octet-stream");
                      ("MIME-Version", "1.0");
                      ("Content-Transfer-Encoding", "base64");
                      ("Content", "attachment; filename = " +:+ file)];
       mb_payload := StrPayload (base64.encodebytes data) |}.

(** The parts for a list of files, in order; a file that cannot be read
    gives none. *)
Definition attachment_parts (fs : FileSystem) (files : list Path)
  : list MIMEPart :=
  omap (fun file => match fs !! file with
                    | Some (File data) => Some (attachment_part file data)
                    | _ => None
                    end) files.

(** The message that one composition leaves in [self._message], given the
    one it found there. *)
Definition composed (sender : string) (m : EmailMessage) (old : MIMEMultipart)
  : MIMEMultipart :=
  let base := if Message_truthy old then old
              else MIMEMultipart_new MIMESemantics.MULTIPART_ENTRY in
  {| mp_headers := mp_headers base ++
                     [("Subject", subject m); ("From", sender);
                      ("To", destination_email_address m)];
     mp_payload := mp_payload base ++
                     [MIMEText (plain_text_body m) "plain";
                      MIMEText (html_body m) "html"] |}.

(** The exception with which the body of the [with] block ends: the one
    of the login, or the [NameError] of the first unbound name. *)
Definition body_exn (relay : Relay) : exn :=
  match on_login relay with
  | Some e => e
  | None => Exc NameError "name 'receiver_email' is not defined"
  end.

(** The login found the connection lost. *)
Definition login_lost (relay : Relay) : bool :=
  match on_login relay with
  | Some e => lost_connection e
  | None => false
  end.

(** What one pass through the [try] statement puts on the network and the
    exception that reaches the [except] clauses, for a relay and the
    configuration of the client. *)
Definition session_outcome (relay : Relay) (cfg : SMTPConfig)
  : exn * list NetEvent :=
  let connect := Connect (smtp_server cfg) (smtp_port cfg) in
  let auth := Login (sender_email_address cfg) (google_smtp_app_passwd cfg) in
  match on_connect relay with
  | Some e => (e, connect :: (if refused_greeting e then [Close] else []))
  | None =>
      if login_lost relay then (body_exn relay, [connect; auth; Close])
      else
        match on_quit relay with
        | QuitBadCode reply =>
            (Exc SMTPResponseException reply, [connect; auth; Quit; Close])
        | QuitOk | QuitDisconnected =>
            (body_exn relay, [connect; auth; Quit; Close])
        end
  end.

(** The exception that the relay makes smtplib raise, when the connection
    or, after it, the login fails, is one that [except Exception] catches. *)
Definition relay_raises_exceptions (relay : Relay) : Prop :=
  match on_connect relay with
  | Some e => isinstance e Exception_ = true
  | None => match on_login relay with
            | Some e => isinstance e Exception_ = true
            | None => True
            end
  end.

(** The relay fails the call with [e]: at the connection or, once
    connected, at the login. *)
Definition relay_fails_with (relay : Relay) (e : exn) : Prop :=
  on_connect relay = Some e \/
  (on_connect relay = None /\ on_login relay = Some e).

(** The parts that the loop adds to a message. *)
Definition attach_all (parts : list MIMEPart) (msg : MIMEMultipart)
  : MIMEMultipart :=
  {| mp_headers := mp_headers msg; mp_payload := mp_payload msg ++ parts |}.

Definition with_message (s : State) (msg : MIMEMultipart) : State :=
  {| self := {| _cfg := _cfg (self s); _message := msg |};
     wire := wire s; stdout := stdout s |}.

Definition header_names (hs : list header) : list string := map fst hs.

(** ** Values used in the examples *)

(** The message that a call of [send_email] leaves in the client. *)
Definition after_send (fs : FileSystem) (m : EmailMessage) (s : State)
  : State :=
  with_message s
    (attach_all (attachment_parts fs (attachments m))
       (composed (sender_email_address (_cfg (self s))) m
          (_message (self s)))).

(** The composer, called with the fields of a message. *)
Definition compose (m : EmailMessage) : M unit :=
  SMTPClient._init_MIMEMultipart_email
    (subject m) (destination_email_address m)
    (plain_text_body m) (html_body m).

(** The message of the scenarios with its subject left empty. *)
Definition no_subject : EmailMessage :=
  {| destination_email_address := "a@example.com";
     subject := "";
     plain_text_body := "hello";
     html_body := "<p>hello</p>";
     attachments := [] |}.

(** A file system with one file that can be read. *)
Definition fs_notes : FileSystem :=
  {[ "notes.txt" := File [Byte.x4d; Byte.x61; Byte.x6e] ]}.

(** The message of the scenarios with two attachments, the second of which
    does not exist in [fs_notes]. *)
Definition with_missing : EmailMessage :=
  {| destination_email_address := "a@example.com";
     subject := "Hi";
     plain_text_body := "hello";
     html_body := "<p>hello</p>";
     attachments := ["notes.txt"; "missing.txt"] |}.

(** A message with an empty subject and an attachment that does not
    exist. *)
Definition no_subject_missing : EmailMessage :=
  {| destination_email_address := "a@example.com";
     subject := "";
     plain_text_body := "hello";
     html_body := "<p>hello</p>";
     attachments := ["missing.txt"] |}.

(** A file system whose one entry exists and cannot be opened: the file
    has no read permission, and [open] raises the error of the system. *)
Definition fs_locked : FileSystem :=
  {[ "secret.bin" :=
       OpenFails (Exc PermissionError
                    "[Errno 13] Permission denied: 'secret.bin'") ]}.

Definition with_locked : EmailMessage :=
  {| destination_email_address := "a@example.com";
     subject := "Hi";
     plain_text_body := "hello";
     html_body := "<p>hello</p>";
     attachments := ["secret.bin"] |}.

(** A relay that rejects the login, keeps the connection, and answers
    QUIT with a code other than 221. *)
Definition relay_rejecting_then_bad_quit : Relay :=
  {| on_connect := None;
     on_login := on_login relay_rejecting_login;
     on_sendmail := None;
     on_quit := QuitBadCode "(500, b'nope')" |}.

(** ** Vocabulary of the further properties *)

Definition is_Connect (ev : NetEvent) : bool :=
  match ev with Connect _ _ => true | _ => false end.

(** Two states with the same configuration, network history and output:
    at most the message of the client differs. *)
Definition same_io (s s' : State) : Prop :=
  wire s' = wire s /\ stdout s' = stdout s /\
  _cfg (self s') = _cfg (self s).

(** A computation that touches neither the network nor standard output nor
    the configuration, whatever it returns or raises. *)
Definition quiet {A} (m : M A) : Prop := forall s, same_io s (snd (m s)).

(** The message of [s'] holds the headers and the parts of the message of
    [s], in the same order, and possibly more after them. *)
Definition extends (s s' : State) : Prop :=
  mp_headers (_message (self s)) `prefix_of`
    mp_headers (_message (self s')) /\
  mp_payload (_message (self s)) `prefix_of`
    mp_payload (_message (self s')).

(** The states that a process can be in: it builds its client from the
    environment and then calls [send_email] any number of times, with any
    argument, file system and relay. *)
Inductive Reachable (environ : gmap string string) : State -> Prop :=
| Reachable_boot : Reachable environ (boot (SMTPClient.__init__ environ))
| Reachable_send (fs : FileSystem) (relay : Relay)
    (arg : option EmailMessage) (s : State) :
    Reachable environ s ->
    Reachable environ (snd (SMTPClient.send_email fs relay arg s)).

(** The client after [n] calls of [send_email] with one message. *)
Fixpoint send_times (fs : FileSystem) (relay : Relay) (m : EmailMessage)
    (n : nat) (s : State) : State :=
  match n with
  | O => s
  | S n' =>
      send_times fs relay m n'
        (snd (SMTPClient.send_email fs relay (Some m) s))
  end.

(** *** binascii: decoding base64

    The loop of [binascii.a2b_base64] in its default mode: a character
    that is no digit is passed over, the padding ends the input once the
    current group is complete, and an input that ends inside a group is an
    error ([None]). *)

Module binascii.

(** The place of a character in a string, counted from [i]. *)
Fixpoint index_of (c : ascii) (s : string) (i : N) : option N :=
  match s with
  | EmptyString => None
  | String d s' => if Ascii.eqb c d then Some i else index_of c s' (N.succ i)
  end.

(** The value of a base64 digit; [None] for any other character. *)
Definition value (c : ascii) : option N := index_of c base64.alphabet 0.

(** The byte with a given value. *)
Definition byte_of (n : N) : Byte.byte :=
  match Byte.of_N n with Some b => b | None => Byte.x00 end.

(** The loop, with the place in the current group of four digits, the bits
    left over from the digits of the group, the padding characters seen
    and the bytes made so far. *)
Fixpoint a2b_loop (s : string) (quad_pos : nat) (leftchar : N) (pads : nat)
    (out : list Byte.byte) : option (list Byte.byte) :=
  match s with
  | EmptyString => if (quad_pos =? 0)%nat then Some out else None
  | String ch s' =>
      if Ascii.eqb ch "="%char then
        if (2 <=? quad_pos)%nat then
          if (4 <=? quad_pos + S pads)%nat then Some out
          else a2b_loop s' quad_pos leftchar (S pads) out
        else a2b_loop s' quad_pos leftchar pads out
      else
        match value ch with
        | None => a2b_loop s' quad_pos leftchar pads out
        | Some v =>
            match quad_pos with
            | 0 => a2b_loop s' 1 v 0 out
            | 1 => a2b_loop s' 2 (v mod 16)%N 0
                     (out ++ [byte_of (leftchar * 4 + v / 16)%N])
            | 2 => a2b_loop s' 3 (v mod 4)%N 0
                     (out ++ [byte_of (leftchar * 16 + v / 4)%N])
            | _ => a2b_loop s' 0 0%N 0
                     (out ++ [byte_of (leftchar * 64 + v)%N])
            end
        end
  end.

Definition a2b_base64 (s : string) : option (list Byte.byte) :=
  a2b_loop s 0 0%N 0 [].

End binascii.

(** ** The script at the end of the module *)

Definition dquote : string := String "034"%char EmptyString.
Definition LF : string := String "010"%char EmptyString.

(** The HTML body of the two mails of the script; [first_line] is the
    text of the paragraph, the one place where the two differ. *)
Definition script_html (first_line : string) : string :=
  "        <html>" +:+ LF +:+
  "          <body>" +:+ LF +:+
  "            <p>" +:+ first_line +:+ "<br>" +:+ LF +:+
  "                Test Automatic Email Sending<br>" +:+ LF +:+
  "            <a href=" +:+ dquote +:+
  "https://docs.python.org/3/library/smtplib.html#smtp-objects" +:+
  dquote +:+ ">smptlib python stdlib</a> " +:+ LF +:+
  "            Is the source of Truth!" +:+ LF +:+
  "            </p>" +:+ LF +:+
  "          </body>" +:+ LF +:+
  "        </html>" +:+ LF +:+
  "        ".

Definition my_email_contents : EmailMessage :=
  {| destination_email_address := "jsamis311@gmail.com";
     subject := "Example Test Subject";
     plain_text_body := "Test Email";
     html_body := script_html "Test Email";
     attachments := ["test_attachment.txt"] |}.

Definition manasi_email_contents : EmailMessage :=
  {| destination_email_address := "manasi.pande@ottawa.ca";
     subject := "Example Subject";
     plain_text_body := "Test Email";
     html_body := script_html "Te";
     attachments := ["test_attachment.txt"] |}.

(** [not v] for what [send_email] can return *)
Definition py_not (v : pyval) : bool :=
  match v with
  | PyNone => true
  | PyBool b => negb b
  end.

(** The statements of the script after [my_client = EmailClient()]. *)
Definition script (fs : FileSystem) (relay : Relay) : M unit :=
  print "=============================" ;;;
  print "       Start SMTP test       " ;;;
  print "=============================" ;;;
  r <- EmailClient.send_email fs relay (Some my_email_contents) ;;;
  (if py_not r then print "Email to myself falied"
   else print "Email to Myself PASS") ;;;
  r <- EmailClient.send_email fs relay (Some manasi_email_contents) ;;;
  (if py_not r then print "Email to manasi failed"
   else print "Email to Manasi PASS") ;;;
  print "=============================" ;;;
  print "       END SMTP test         " ;;;
  print "=============================" ;;;
  let a := [1; 2; 3]%nat in
  (if SMTPClient.list_truthy a then print "a has stuff" else ret tt) ;;;
  (if negb (SMTPClient.list_truthy a) then print "a is empty"
   else print "a is not empty").

(** The module run as a script: the facade is built, which builds the
    client from the environment, and the statements run. *)
Definition main (environ : gmap string string) (fs : FileSystem)
    (relay : Relay) : Res unit * State :=
  script fs relay (boot (SMTPClient.__init__ environ)).

(** The lines that the handlers of [send_email] print begin with one of
    these. *)
Definition handler_prefixes : list string :=
  [ "Error Connecting to server. ";
    "Error with Server Auth. ";
    "Sender Email Address Refused to comply. ";
    "Error with SMTP Operation. ";
    "Exception raised in SMTPClient.send_email() instance. " ].

Definition handler_line (line : string) : Prop :=
  exists prefix rest, prefix ∈ handler_prefixes /\ line = prefix +:+ rest.

(** A computation that prints only lines with the property [P]. *)
Definition emits {A} (P : string -> Prop) (m : M A) : Prop :=
  forall s, Forall P (stdout s) -> Forall P (stdout (snd (m s))).

(** A file system that holds the attachment of the script. *)
Definition fs_script : FileSystem :=
  {[ "test_attachment.txt" := File [Byte.x68; Byte.x69; Byte.x0a] ]}.

(** * Properties *)

(** ** Names that the module leaves unbound *)

Lemma unbound_RunTimeError : namespace !! "RunTimeError" = None.
Proof. vm_compute. reflexivity. Qed.

Lemma unbound_RuntTimeError : namespace !! "RuntTimeError" = None.
Proof. vm_compute. reflexivity. Qed.

Lemma unbound_receiver_email : namespace !! "receiver_email" = None.
Proof. vm_compute. reflexivity. Qed.

Lemma bound_FileNotFoundError :
  namespace !! "FileNotFoundError" = Some (ClassObj FileNotFoundError).
Proof. vm_compute. reflexivity. Qed.

Lemma bound_SMTPEmailException :
  namespace !! "SMTPEmailException" = Some (ClassObj SMTPEmailException).
Proof. vm_compute. reflexivity. Qed.

Lemma raise_unbound {A} (name msg : string) (s : State) :
  namespace !! name = None ->
  @raise_named A name msg s =
    (Raise (Exc NameError ("name '" +:+ name +:+ "' is not defined")), s).
Proof.
  intros Hn. unfold raise_named, load_name, bind. rewrite Hn. reflexivity.
Qed.

Lemma raise_bound {A} (name msg : string) (c : ExcClass) (s : State) :
  namespace !! name = Some (ClassObj c) ->
  @raise_named A name msg s = (Raise (Exc c msg), s).
Proof.
  intros Hn. unfold raise_named, load_name, bind. rewrite Hn. reflexivity.
Qed.

Lemma str_falsy_false (x : string) : x <> "" -> SMTPClient.str_falsy x = false.
Proof.
  intros Hx. unfold SMTPClient.str_falsy. by apply bool_decide_eq_false.
Qed.

Lemma str_falsy_true (x : string) : x = "" -> SMTPClient.str_falsy x = true.
Proof.
  intros Hx. unfold SMTPClient.str_falsy. by apply bool_decide_eq_true.
Qed.

(** ** The composer *)

(** On non-empty arguments [_init_MIMEMultipart_email] does not raise; it
    appends three headers and two parts to the message of the client. *)
Lemma compose_appends (s : State) (m : EmailMessage) :
  well_formed m ->
  SMTPClient._init_MIMEMultipart_email
    (subject m) (destination_email_address m)
    (plain_text_body m) (html_body m) s =
  (Ok tt, with_message s (composed (sender_email_address (_cfg (self s))) m
                            (_message (self s)))).
Proof.
  intros (Hs & Hp & Hh).
  unfold SMTPClient._init_MIMEMultipart_email, bind.
  rewrite (str_falsy_false _ Hp), (str_falsy_false _ Hh),
    (str_falsy_false _ Hs).
  unfold composed, with_message, get_message, get_cfg, set_message, ret.
  unfold Message_attach, Message_setitem.
  destruct (Message_truthy (_message (self s))); cbn;
    rewrite <- ?app_assoc; reflexivity.
Qed.

(** ** Attachments *)

Lemma Path_exists_File (fs : FileSystem) (file : Path)
    (data : list Byte.byte) (s : State) :
  fs !! file = Some (File data) -> Path_exists fs file s = (Ok true, s).
Proof. intros Hf. unfold Path_exists. by rewrite Hf. Qed.

Lemma Path_exists_None (fs : FileSystem) (file : Path) (s : State) :
  fs !! file = None -> Path_exists fs file s = (Ok false, s).
Proof. intros Hf. unfold Path_exists. by rewrite Hf. Qed.

(** A file that can be read becomes one more part of the message. *)
Lemma add_attachment_file (fs : FileSystem) (file : Path)
    (data : list Byte.byte) (s : State) :
  fs !! file = Some (File data) ->
  SMTPClient.add_attachment fs file s =
    (Ok tt, with_message s (Message_attach (attachment_part file data)
                              (_message (self s)))).
Proof.
  intros Hf. unfold SMTPClient.add_attachment. unfold bind at 1.
  rewrite (Path_exists_File _ _ _ _ Hf). unfold bind, open_read.
  rewrite Hf. reflexivity.
Qed.

(** A path that does not exist stops the loop with [FileNotFoundError]. *)
Lemma add_attachment_missing (fs : FileSystem) (file : Path) (s : State) :
  fs !! file = None ->
  SMTPClient.add_attachment fs file s =
    (Raise (Exc FileNotFoundError ("Could not find file: " +:+ file)), s).
Proof.
  intros Hf. unfold SMTPClient.add_attachment. unfold bind at 1.
  rewrite (Path_exists_None _ _ _ Hf). unfold bind. cbn [negb].
  rewrite (raise_bound _ _ _ _ bound_FileNotFoundError). reflexivity.
Qed.

(** A path that exists and cannot be opened gets past the test of
    [exists()] and fails in [open], with the error of [open]. *)
Lemma add_attachment_open_fails (fs : FileSystem) (file : Path) (e : exn)
    (s : State) :
  fs !! file = Some (OpenFails e) ->
  SMTPClient.add_attachment fs file s = (Raise e, s).
Proof.
  intros Hf. unfold SMTPClient.add_attachment. unfold bind at 1.
  unfold Path_exists. rewrite Hf. unfold bind, open_read.
  rewrite Hf. reflexivity.
Qed.

(** A path that [exists()] cannot look at fails in [exists()]. *)
Lemma add_attachment_stat_fails (fs : FileSystem) (file : Path) (e : exn)
    (s : State) :
  fs !! file = Some (StatFails e) ->
  SMTPClient.add_attachment fs file s = (Raise e, s).
Proof.
  intros Hf. unfold SMTPClient.add_attachment. unfold bind at 1.
  unfold Path_exists. by rewrite Hf.
Qed.

Lemma with_message_id (s : State) : with_message s (_message (self s)) = s.
Proof. destruct s as [[cfg msg] w out]. reflexivity. Qed.

Lemma attachment_parts_cons (fs : FileSystem) (file : Path)
    (data : list Byte.byte) (files : list Path) :
  fs !! file = Some (File data) ->
  attachment_parts fs (file :: files) =
    attachment_part file data :: attachment_parts fs files.
Proof. intros Hf. unfold attachment_parts. simpl. by rewrite Hf. Qed.

Lemma attach_all_nil (msg : MIMEMultipart) : attach_all [] msg = msg.
Proof. destruct msg. unfold attach_all. cbn. by rewrite app_nil_r. Qed.

(** When every file can be read the loop attaches one part per file, in the
    order of the list. *)
Lemma add_attachments_files (fs : FileSystem) (files : list Path) :
  Forall (readable fs) files ->
  forall s,
    SMTPClient._add_attachments fs files s =
      (Ok tt, with_message s (attach_all (attachment_parts fs files)
                                (_message (self s)))).
Proof.
  induction 1 as [|file files [data Hf] _ IH]; intros s.
  - cbn. unfold ret. by rewrite attach_all_nil, with_message_id.
  - cbn [SMTPClient._add_attachments]. unfold bind at 1.
    rewrite (add_attachment_file _ _ _ _ Hf), IH.
    rewrite (attachment_parts_cons _ _ _ _ Hf).
    unfold attach_all, Message_attach, with_message. cbn.
    by rewrite <- app_assoc.
Qed.

(** The loop stops at the first file that cannot be attached: the files
    before it are attached, the exception of that file is raised, and
    neither the network nor standard output is touched. *)
Lemma add_attachments_stop (fs : FileSystem) (pre post : list Path)
    (file : Path) (e : exn) :
  Forall (readable fs) pre ->
  (forall s, SMTPClient.add_attachment fs file s = (Raise e, s)) ->
  forall s,
    SMTPClient._add_attachments fs (pre ++ file :: post) s =
      (Raise e, with_message s (attach_all (attachment_parts fs pre)
                                  (_message (self s)))).
Proof.
  intros Hpre Hfile. induction Hpre as [|p pre [data Hf] _ IH]; intros s.
  - cbn [app SMTPClient._add_attachments]. unfold bind. rewrite Hfile.
    cbn. by rewrite attach_all_nil, with_message_id.
  - cbn [app SMTPClient._add_attachments]. unfold bind at 1.
    rewrite (add_attachment_file _ _ _ _ Hf), IH.
    rewrite (attachment_parts_cons _ _ _ _ Hf).
    unfold attach_all, Message_attach, with_message. cbn.
    by rewrite <- app_assoc.
Qed.

(** ** The transport *)

(** An exception that [except Exception] catches is answered by exactly one
    printed line, whichever clause of the chain takes it. *)
Lemma handlers_print (e : exn) (s : State) :
  isinstance e Exception_ = true ->
  exists line, SMTPClient.handlers e s = print line s.
Proof.
  intros He. unfold SMTPClient.handlers.
  repeat match goal with
         | |- context [if ?b then _ else _] => destruct b eqn:?; eauto
         end.
  discriminate.
Qed.

(** An authentication rejection is taken by the second clause. *)
Lemma handlers_auth (msg : string) (s : State) :
  SMTPClient.handlers (Exc SMTPAuthenticationError msg) s =
    print ("Error with Server Auth. " +:+
           SMTPClient.type_and_str (Exc SMTPAuthenticationError msg)) s.
Proof. reflexivity. Qed.

Ltac run_deliver :=
  unfold SMTPClient.deliver, try_except, with_SMTP_SSL, SMTP_SSL, login,
    SMTP_exit, command, sock_open, load_name, bind, get_cfg, emit, raise, ret;
  cbn [fst snd self wire stdout].

Lemma sock_after_app (open : bool) (evs1 evs2 : list NetEvent) :
  sock_after open (evs1 ++ evs2) = sock_after (sock_after open evs1) evs2.
Proof.
  revert open. induction evs1 as [|ev evs1 IH]; intros open; [reflexivity|].
  destruct ev; cbn; apply IH.
Qed.

(** The [try] statement, run: the session of [session_outcome] is on the
    network and its exception is handed to the [except] clauses. *)
Lemma deliver_run (relay : Relay) (s : State) :
  SMTPClient.deliver relay s =
    SMTPClient.handlers (fst (session_outcome relay (_cfg (self s))))
      {| self := self s;
         wire := wire s ++ snd (session_outcome relay (_cfg (self s)));
         stdout := stdout s |}.
Proof.
  destruct relay as [oc ol os oq].
  unfold session_outcome, login_lost, body_exn. run_deliver.
  cbn [on_connect on_login on_quit]. rewrite unbound_receiver_email.
  destruct oc as [ec|]; cbn.
  - destruct (refused_greeting ec); cbn; by rewrite <- ?app_assoc.
  - destruct ol as [el|]; [destruct (lost_connection el)|]; cbn;
      rewrite ?sock_after_app; cbn; try destruct oq; cbn;
      by rewrite <- ?app_assoc.
Qed.

(** The exception that reaches the [except] clauses is caught by them when
    those of the relay are. *)
Lemma session_exn_caught (relay : Relay) (cfg : SMTPConfig) :
  relay_raises_exceptions relay ->
  isinstance (fst (session_outcome relay cfg)) Exception_ = true.
Proof.
  unfold relay_raises_exceptions, session_outcome, login_lost, body_exn.
  destruct (on_connect relay) as [ec|]; [by intros|].
  destruct (on_login relay) as [el|]; intros Hr.
  - destruct (lost_connection el); [exact Hr|].
    destruct (on_quit relay); [exact Hr|reflexivity|exact Hr].
  - cbn. by destruct (on_quit relay).
Qed.

(** No session has a [sendmail] in it. *)
Lemma session_no_sendmail (relay : Relay) (cfg : SMTPConfig) :
  filter is_SendMail (snd (session_outcome relay cfg)) = [].
Proof.
  unfold session_outcome.
  destruct (on_connect relay) as [ec|].
  - by destruct (refused_greeting ec).
  - destruct (login_lost relay); [reflexivity|].
    by destruct (on_quit relay).
Qed.

(** Whatever the relay does, the [try] statement ends without an exception,
    prints one line, leaves the client alone and never reaches [sendmail]. *)
Lemma deliver_total (relay : Relay) (s : State) :
  relay_raises_exceptions relay ->
  exists s' line,
    SMTPClient.deliver relay s = (Ok tt, s') /\
    self s' = self s /\
    stdout s' = stdout s ++ [line] /\
    filter is_SendMail (wire s') = filter is_SendMail (wire s).
Proof.
  intros Hr. rewrite deliver_run.
  destruct (handlers_print _
              {| self := self s;
                 wire := wire s ++ snd (session_outcome relay (_cfg (self s)));
                 stdout := stdout s |}
              (session_exn_caught relay (_cfg (self s)) Hr)) as [line ->].
  eexists _, line. split; [reflexivity|]. cbn. repeat split.
  by rewrite filter_app, session_no_sendmail, app_nil_r.
Qed.

(** With a relay that accepts the connection and the login, the body of the
    [with] block stops at the name [receiver_email]: the session is closed
    and the last clause prints the [NameError]. *)
Lemma deliver_accepted (relay : Relay) (s : State) :
  on_connect relay = None -> on_login relay = None ->
  on_quit relay = QuitOk ->
  SMTPClient.deliver relay s =
    (Ok tt,
     {| self := self s;
        wire := wire s ++
          [Connect (smtp_server (_cfg (self s))) (smtp_port (_cfg (self s)));
           Login (sender_email_address (_cfg (self s)))
                 (google_smtp_app_passwd (_cfg (self s)));
           Quit; Close];
        stdout := stdout s ++
          ["Exception raised in SMTPClient.send_email() instance. " +:+
           "name 'receiver_email' is not defined"] |}).
Proof.
  intros Hc Hl Hq. rewrite deliver_run.
  unfold session_outcome, login_lost, body_exn. rewrite Hc, Hl, Hq.
  reflexivity.
Qed.

(** With a relay that rejects the login and keeps the connection, the
    session is closed and the clause of the exception prints its line. *)
Lemma deliver_login_rejected (relay : Relay) (e : exn) (s : State) :
  on_connect relay = None -> on_login relay = Some e ->
  lost_connection e = false ->
  on_quit relay = QuitOk ->
  SMTPClient.deliver relay s =
    SMTPClient.handlers e
      {| self := self s;
         wire := wire s ++
           [Connect (smtp_server (_cfg (self s))) (smtp_port (_cfg (self s)));
            Login (sender_email_address (_cfg (self s)))
                  (google_smtp_app_passwd (_cfg (self s)));
            Quit; Close];
         stdout := stdout s |}.
Proof.
  intros Hc Hl Hlost Hq. rewrite deliver_run.
  unfold session_outcome, login_lost, body_exn. rewrite Hc, Hl, Hlost, Hq.
  reflexivity.
Qed.

(** ** [send_email] as a whole *)

Lemma list_truthy_attach (fs : FileSystem) (files : list Path) (s : State) :
  Forall (readable fs) files ->
  (if SMTPClient.list_truthy files
   then SMTPClient._add_attachments fs files else ret tt) s =
    (Ok tt, with_message s (attach_all (attachment_parts fs files)
                              (_message (self s)))).
Proof.
  intros Hfiles. destruct files as [|file files].
  - cbn. unfold ret. by rewrite attach_all_nil, with_message_id.
  - cbn [SMTPClient.list_truthy]. by apply add_attachments_files.
Qed.

(** For a well-formed message whose attachments can all be read, the call
    composes into the message of the client and goes on to the [try]
    statement. *)
Lemma send_email_reaches_deliver (fs : FileSystem) (relay : Relay)
    (m : EmailMessage) (s : State) :
  well_formed m -> Forall (readable fs) (attachments m) ->
  SMTPClient.send_email fs relay (Some m) s =
    (SMTPClient.deliver relay ;;; ret PyNone) (after_send fs m s).
Proof.
  intros Hm Hfiles. unfold SMTPClient.send_email.
  unfold bind at 1. rewrite (compose_appends _ _ Hm).
  unfold bind at 1. rewrite (list_truthy_attach _ _ _ Hfiles).
  reflexivity.
Qed.

(** A rejected login, for any message: the clause of
    [SMTPAuthenticationError] prints its line and the call returns
    [None]. *)
Lemma send_email_login_rejected (fs : FileSystem) (relay : Relay)
    (m : EmailMessage) (s : State) (msg : string) :
  well_formed m -> Forall (readable fs) (attachments m) ->
  on_connect relay = None ->
  on_login relay = Some (Exc SMTPAuthenticationError msg) ->
  on_quit relay = QuitOk ->
  SMTPClient.send_email fs relay (Some m) s =
    (Ok PyNone,
     {| self := self (after_send fs m s);
        wire := wire s ++
          [Connect (smtp_server (_cfg (self s))) (smtp_port (_cfg (self s)));
           Login (sender_email_address (_cfg (self s)))
                 (google_smtp_app_passwd (_cfg (self s)));
           Quit; Close];
        stdout := stdout s ++
          ["Error with Server Auth. " +:+
           SMTPClient.type_and_str (Exc SMTPAuthenticationError msg)] |}).
Proof.
  intros Hm Hfiles Hc Hl Hq.
  rewrite (send_email_reaches_deliver _ _ _ _ Hm Hfiles).
  unfold bind.
  rewrite (deliver_login_rejected _ _ _ Hc Hl eq_refl Hq), handlers_auth.
  reflexivity.
Qed.

(** ** The claims *)

(** C1. What [send_email] does with a well-formed message whose attachments
    can be read and a relay that accepts the connection and the login: it
    composes the mail into the message of the client, opens the encrypted
    socket to the configured host and port and logs in with the configured
    credentials; it then closes the session without any [sendmail] on the
    network, prints the [NameError] of [receiver_email], and returns
    [None]. Nothing is transmitted and the value is not a success value. *)
Theorem send_email_accepting_relay (fs : FileSystem) (relay : Relay)
    (m : EmailMessage) (s : State) :
  well_formed m -> Forall (readable fs) (attachments m) ->
  on_connect relay = None -> on_login relay = None ->
  on_quit relay = QuitOk ->
  SMTPClient.send_email fs relay (Some m) s =
    (Ok PyNone,
     {| self := self (after_send fs m s);
        wire := wire s ++
          [Connect (smtp_server (_cfg (self s))) (smtp_port (_cfg (self s)));
           Login (sender_email_address (_cfg (self s)))
                 (google_smtp_app_passwd (_cfg (self s)));
           Quit; Close];
        stdout := stdout s ++
          ["Exception raised in SMTPClient.send_email() instance. " +:+
           "name 'receiver_email' is not defined"] |}).
Proof.
  intros Hm Hfiles Hc Hl Hq.
  rewrite (send_email_reaches_deliver _ _ _ _ Hm Hfiles).
  unfold bind. rewrite (deliver_accepted _ _ Hc Hl Hq). reflexivity.
Qed.

Lemma hello_well_formed : well_formed hello.
Proof. repeat split; discriminate. Qed.

Lemma send_email_accepting_relay_witness :
  well_formed hello /\
  SMTPClient.send_email fs_empty relay_accepting (Some hello) fresh =
    (Ok PyNone,
     {| self := self (after_send fs_empty hello fresh);
        wire := wire fresh ++
          [Connect (smtp_server (_cfg (self fresh)))
                   (smtp_port (_cfg (self fresh)));
           Login (sender_email_address (_cfg (self fresh)))
                 (google_smtp_app_passwd (_cfg (self fresh)));
           Quit; Close];
        stdout := stdout fresh ++
          ["Exception raised in SMTPClient.send_email() instance. " +:+
           "name 'receiver_email' is not defined"] |}).
Proof.
  split; [exact hello_well_formed|].
  apply (send_email_accepting_relay fs_empty relay_accepting hello fresh).
  - exact hello_well_formed.
  - constructor.
  - reflexivity.
  - reflexivity.
  - reflexivity.
Defined.

(** The same run with every value written out. *)
Example send_email_accepting_relay_run :
  SMTPClient.send_email fs_empty relay_accepting (Some hello) fresh =
    (Ok PyNone,
     {| self :=
          {| _cfg := _cfg (SMTPClient.__init__ environ_ok);
             _message :=
               {| mp_headers :=
                    [("Content-Type", "multipart/alternative");
                     ("MIME-Version", "1.0"); ("Subject", "Hi");
                     ("From", "odyssey@example.com");
                     ("To", "a@example.com")];
                  mp_payload :=
                    [MIMEText "hello" "plain";
                     MIMEText "<p>hello</p>" "html"] |} |};
        wire := [Connect "smtp.gmail.com" "465";
                 Login "odyssey@example.com" "app-secret"; Quit; Close];
        stdout :=
          ["Exception raised in SMTPClient.send_email() instance. " +:+
           "name 'receiver_email' is not defined"] |}).
Proof. vm_compute. reflexivity. Qed.

(** C2. When the relay fails the call with an exception that
    [except Exception] catches, at the connection or at the login,
    [send_email] on a well-formed message does not raise: the handlers
    print one line and the call returns [None], with no [sendmail] on the
    network. The value is [None], not a failure value that names the
    category. *)
Theorem send_email_transport_error (fs : FileSystem) (relay : Relay)
    (m : EmailMessage) (s : State) (e : exn) :
  well_formed m -> Forall (readable fs) (attachments m) ->
  relay_fails_with relay e -> isinstance e Exception_ = true ->
  exists s' line,
    SMTPClient.send_email fs relay (Some m) s = (Ok PyNone, s') /\
    stdout s' = stdout s ++ [line] /\
    filter is_SendMail (wire s') = filter is_SendMail (wire s).
Proof.
  intros Hm Hfiles Hfail He.
  assert (Hr : relay_raises_exceptions relay).
  { unfold relay_raises_exceptions.
    destruct Hfail as [Hc | [Hc Hl]]; rewrite Hc; [|rewrite Hl]; exact He. }
  rewrite (send_email_reaches_deliver _ _ _ _ Hm Hfiles).
  destruct (deliver_total relay (after_send fs m s) Hr)
    as (s' & line & Hd & _ & Hout & Hwire).
  exists s', line. unfold bind. rewrite Hd. cbn in Hout, Hwire. by repeat split.
Qed.

Lemma send_email_transport_error_witness :
  exists s' line,
    SMTPClient.send_email fs_empty relay_rejecting_login (Some hello) fresh =
      (Ok PyNone, s') /\
    stdout s' = stdout fresh ++ [line] /\
    filter is_SendMail (wire s') = filter is_SendMail (wire fresh).
Proof.
  apply (send_email_transport_error fs_empty relay_rejecting_login hello
           fresh (Exc SMTPAuthenticationError
              "(535, b'5.7.8 Username and Password not accepted')")).
  - exact hello_well_formed.
  - constructor.
  - right. split; reflexivity.
  - reflexivity.
Defined.

(** The scenario of the rejected login, run in full: the second clause
    prints its line and the call returns [None]. *)
Example send_email_auth_rejected :
  SMTPClient.send_email fs_empty relay_rejecting_login (Some hello) fresh =
    (Ok PyNone,
     {| self := self (after_send fs_empty hello fresh);
        wire := [Connect "smtp.gmail.com" "465";
                 Login "odyssey@example.com" "app-secret"; Quit; Close];
        stdout :=
          ["Error with Server Auth. " +:+
           "<class 'smtplib.SMTPAuthenticationError'>: " +:+
           "(535, b'5.7.8 Username and Password not accepted')"] |}).
Proof. vm_compute. reflexivity. Qed.

(** On a client that has composed nothing yet, composition gives the three
    headers after the two of the constructor and exactly the two parts,
    plain text first and HTML second. *)
Lemma compose_first_call (environ : gmap string string) (m : EmailMessage) :
  well_formed m ->
  exists s1,
    compose m (boot (SMTPClient.__init__ environ)) = (Ok tt, s1) /\
    mp_headers (_message (self s1)) =
      [("Content-Type", "multipart/alternative"); ("MIME-Version", "1.0");
       ("Subject", subject m);
       ("From", getenv environ "SENDER_EMAIL_ADDRESS" "");
       ("To", destination_email_address m)] /\
    mp_payload (_message (self s1)) =
      [MIMEText (plain_text_body m) "plain"; MIMEText (html_body m) "html"].
Proof.
  intros Hm. eexists. unfold compose. rewrite (compose_appends _ _ Hm).
  split; [reflexivity|]. split; reflexivity.
Qed.

(** C3. Composition of a well-formed message on a client that has already
    composed once: the call does not raise, and the message of the client
    then holds four body parts (plain, HTML, plain, HTML) and each of
    Subject, From and To twice, where the first composition had left two
    parts. *)
Theorem compose_second_call (environ : gmap string string)
    (m : EmailMessage) :
  well_formed m ->
  exists s1 s2,
    compose m (boot (SMTPClient.__init__ environ)) = (Ok tt, s1) /\
    compose m s1 = (Ok tt, s2) /\
    mp_payload (_message (self s1)) =
      [MIMEText (plain_text_body m) "plain"; MIMEText (html_body m) "html"] /\
    mp_payload (_message (self s2)) =
      [MIMEText (plain_text_body m) "plain"; MIMEText (html_body m) "html";
       MIMEText (plain_text_body m) "plain"; MIMEText (html_body m) "html"] /\
    header_names (mp_headers (_message (self s2))) =
      ["Content-Type"; "MIME-Version"; "Subject"; "From"; "To";
       "Subject"; "From"; "To"].
Proof.
  intros Hm. eexists _, _. unfold compose.
  rewrite (compose_appends _ _ Hm).
  split; [reflexivity|]. rewrite (compose_appends _ _ Hm).
  split; [reflexivity|]. repeat split; reflexivity.
Qed.

Lemma compose_second_call_witness :
  well_formed hello /\
  exists s1 s2,
    compose hello fresh = (Ok tt, s1) /\
    compose hello s1 = (Ok tt, s2) /\
    mp_payload (_message (self s1)) =
      [MIMEText (plain_text_body hello) "plain";
       MIMEText (html_body hello) "html"] /\
    mp_payload (_message (self s2)) =
      [MIMEText (plain_text_body hello) "plain";
       MIMEText (html_body hello) "html";
       MIMEText (plain_text_body hello) "plain";
       MIMEText (html_body hello) "html"] /\
    header_names (mp_headers (_message (self s2))) =
      ["Content-Type"; "MIME-Version"; "Subject"; "From"; "To";
       "Subject"; "From"; "To"].
Proof.
  split; [exact hello_well_formed|].
  apply (compose_second_call environ_ok hello). exact hello_well_formed.
Defined.

(** C4. A message with an empty subject, plain-text body or HTML body makes
    [send_email] raise before anything else happens: the client, the
    network and standard output are as before. The exception is the
    [NameError] of the misspelt class name in the [raise] statement, not an
    exception that carries the message of the check. *)
Theorem send_email_empty_field (fs : FileSystem) (relay : Relay)
    (m : EmailMessage) (s : State) :
  subject m = "" \/ plain_text_body m = "" \/ html_body m = "" ->
  exists name,
    namespace !! name = None /\
    SMTPClient.send_email fs relay (Some m) s =
      (Raise (Exc NameError ("name '" +:+ name +:+ "' is not defined")), s).
Proof.
  intros Hempty. unfold SMTPClient.send_email,
    SMTPClient._init_MIMEMultipart_email.
  destruct (decide (plain_text_body m = "")) as [Hp|Hp].
  { exists "RunTimeError". split; [exact unbound_RunTimeError|].
    unfold bind at 1 2. unfold bind at 1.
    rewrite (str_falsy_true _ Hp).
    by rewrite (raise_unbound _ _ _ unbound_RunTimeError). }
  exists "RuntTimeError". split; [exact unbound_RuntTimeError|].
  destruct (decide (html_body m = "")) as [Hh|Hh].
  { unfold bind at 1 2. unfold bind at 1. unfold bind at 1.
    rewrite (str_falsy_false _ Hp), (str_falsy_true _ Hh).
    unfold ret. by rewrite (raise_unbound _ _ _ unbound_RuntTimeError). }
  assert (Hs : subject m = "") by (destruct Hempty as [?|[?|?]]; done).
  unfold bind at 1 2. unfold bind at 1. unfold bind at 1. unfold bind at 1.
  rewrite (str_falsy_false _ Hp), (str_falsy_false _ Hh),
    (str_falsy_true _ Hs).
  unfold ret. by rewrite (raise_unbound _ _ _ unbound_RuntTimeError).
Qed.

Lemma send_email_empty_field_witness :
  (subject no_subject = "" \/ plain_text_body no_subject = "" \/
   html_body no_subject = "") /\
  exists name,
    namespace !! name = None /\
    SMTPClient.send_email fs_empty relay_accepting (Some no_subject)
      fresh =
      (Raise (Exc NameError ("name '" +:+ name +:+ "' is not defined")),
       fresh).
Proof.
  split; [left; reflexivity|].
  apply (send_email_empty_field fs_empty relay_accepting no_subject
           fresh).
  left. reflexivity.
Defined.

(** The run on the empty subject, written out. *)
Example send_email_no_subject_run :
  SMTPClient.send_email fs_empty relay_accepting (Some no_subject)
    fresh =
    (Raise (Exc NameError "name 'RuntTimeError' is not defined"),
     fresh).
Proof. vm_compute. reflexivity. Qed.

(** ** Attachments that cannot be attached *)

Lemma readable_dec (fs : FileSystem) (file : Path) :
  {readable fs file} + {~ readable fs file}.
Proof.
  unfold readable. destruct (fs !! file) as [[data|e|e]|].
  - left. by exists data.
  - right. intros [? ?]. discriminate.
  - right. intros [? ?]. discriminate.
  - right. intros [? ?]. discriminate.
Defined.

(** A list with a path that is no readable file splits at the first such
    path. *)
Lemma first_bad_attachment (fs : FileSystem) (files : list Path) :
  Exists (fun file => ~ readable fs file) files ->
  exists pre file post,
    files = pre ++ file :: post /\
    Forall (readable fs) pre /\ ~ readable fs file.
Proof.
  induction files as [|f files IH]; intros Hex.
  - inversion Hex.
  - destruct (readable_dec fs f) as [Hf|Hf].
    + assert (Hrest : Exists (fun file => ~ readable fs file) files).
      { inversion Hex; subst; [contradiction|assumption]. }
      destruct (IH Hrest) as (pre & file & post & -> & Hpre & Hbad).
      exists (f :: pre), file, post. repeat split; [by constructor|done].
    + exists [], f, files. repeat split; [constructor|done].
Qed.

Lemma well_formed_dec (m : EmailMessage) :
  {well_formed m} + {~ well_formed m}.
Proof.
  unfold well_formed.
  destruct (decide (subject m = "")) as [Hs|Hs];
    [right; by intros (? & _)|].
  destruct (decide (plain_text_body m = "")) as [Hp|Hp];
    [right; by intros (_ & ? & _)|].
  destruct (decide (html_body m = "")) as [Hh|Hh];
    [right; by intros (_ & _ & ?)|].
  by left.
Defined.

(** A message that is not well formed makes the composer raise before it
    has touched anything. *)
Lemma compose_ill_formed (m : EmailMessage) (s : State) :
  ~ well_formed m -> exists e, compose m s = (Raise e, s).
Proof.
  intros Hm. unfold compose, SMTPClient._init_MIMEMultipart_email.
  destruct (decide (plain_text_body m = "")) as [Hp|Hp].
  { eexists. unfold bind at 1 2. unfold bind at 1.
    rewrite (str_falsy_true _ Hp).
    by rewrite (raise_unbound _ _ _ unbound_RunTimeError). }
  destruct (decide (html_body m = "")) as [Hh|Hh].
  { eexists. unfold bind at 1 2. unfold bind at 1. unfold bind at 1.
    rewrite (str_falsy_false _ Hp), (str_falsy_true _ Hh).
    unfold ret. by rewrite (raise_unbound _ _ _ unbound_RuntTimeError). }
  destruct (decide (subject m = "")) as [Hs|Hs].
  { eexists.
    unfold bind at 1 2. unfold bind at 1. unfold bind at 1. unfold bind at 1.
    rewrite (str_falsy_false _ Hp), (str_falsy_false _ Hh),
      (str_falsy_true _ Hs).
    unfold ret. by rewrite (raise_unbound _ _ _ unbound_RuntTimeError). }
  exfalso. apply Hm. by repeat split.
Qed.

(** The first path of a list that is no readable file is one path. *)
Lemma first_bad_unique (fs : FileSystem) (pre1 pre2 post1 post2 : list Path)
    (f1 f2 : Path) :
  pre1 ++ f1 :: post1 = pre2 ++ f2 :: post2 ->
  Forall (readable fs) pre1 -> ~ readable fs f1 ->
  Forall (readable fs) pre2 -> ~ readable fs f2 ->
  pre1 = pre2 /\ f1 = f2.
Proof.
  revert pre2. induction pre1 as [|x pre1 IH]; intros pre2 Heq H1 Hf1 H2 Hf2.
  - destruct pre2 as [|y pre2]; cbn in Heq.
    + by injection Heq as -> _.
    + injection Heq as -> _. apply Forall_cons in H2 as [Hy _].
      contradiction.
  - destruct pre2 as [|y pre2]; cbn in Heq.
    + injection Heq as -> _. apply Forall_cons in H1 as [Hx _].
      contradiction.
    + injection Heq as -> Heq.
      apply Forall_cons in H1 as [_ H1]. apply Forall_cons in H2 as [_ H2].
      destruct (IH pre2 Heq H1 Hf1 H2 Hf2) as [-> ->]. by split.
Qed.

(** What one turn of the loop raises on a path that is no readable file:
    the [FileNotFoundError] of the module for a path that is not there,
    and otherwise the error of the system, from [open] or from
    [exists()]. *)
Lemma add_attachment_bad (fs : FileSystem) (file : Path) :
  ~ readable fs file ->
  exists e,
    (forall s, SMTPClient.add_attachment fs file s = (Raise e, s)) /\
    (fs !! file = None ->
     e = Exc FileNotFoundError ("Could not find file: " +:+ file)) /\
    (forall e', fs !! file = Some (OpenFails e') -> e = e') /\
    (forall e', fs !! file = Some (StatFails e') -> e = e').
Proof.
  intros Hbad. destruct (fs !! file) as [[data|e|e]|] eqn:Hf.
  - exfalso. apply Hbad. by exists data.
  - exists e. split; [intros s; by apply add_attachment_open_fails|].
    repeat split; intros; congruence.
  - exists e. split; [intros s; by apply add_attachment_stat_fails|].
    repeat split; intros; congruence.
  - eexists. split; [intros s; by apply add_attachment_missing|].
    repeat split; intros; congruence.
Qed.

(** For a well-formed message [send_email] stops at the first attachment
    that is no existing readable file, with the exception of that turn of
    the loop, before anything is done on the network or printed. *)
Lemma send_email_stops_at (fs : FileSystem) (relay : Relay)
    (m : EmailMessage) (s : State) (pre post : list Path) (file : Path) :
  well_formed m ->
  attachments m = pre ++ file :: post ->
  Forall (readable fs) pre ->
  ~ readable fs file ->
  exists e s',
    SMTPClient.send_email fs relay (Some m) s = (Raise e, s') /\
    wire s' = wire s /\ stdout s' = stdout s /\
    (fs !! file = None ->
     e = Exc FileNotFoundError ("Could not find file: " +:+ file)) /\
    (forall e', fs !! file = Some (OpenFails e') -> e = e') /\
    (forall e', fs !! file = Some (StatFails e') -> e = e').
Proof.
  intros Hm Hsplit Hpre Hbad.
  destruct (add_attachment_bad fs file Hbad) as (e & Hraise & Hcases).
  exists e. eexists. split.
  - unfold SMTPClient.send_email. unfold bind at 1.
    rewrite (compose_appends _ _ Hm). unfold bind at 1.
    rewrite Hsplit.
    assert (Ht : SMTPClient.list_truthy (pre ++ file :: post) = true)
      by (destruct pre; reflexivity).
    rewrite Ht, (add_attachments_stop fs pre post file e Hpre Hraise).
    reflexivity.
  - cbn. split; [reflexivity|]. split; [reflexivity|]. exact Hcases.
Qed.

(** C5, as amended. For every message whose attachment list has a path
    that is no existing readable file, [send_email] raises with nothing
    done on the network and nothing printed: one bad attachment stops the
    whole call before any socket is opened. When the subject and both
    bodies are not empty and the first such path of the list does not
    exist, the exception is the [FileNotFoundError] of the module. *)
Theorem send_email_bad_attachment (fs : FileSystem) (relay : Relay)
    (m : EmailMessage) (s : State) :
  Exists (fun file => ~ readable fs file) (attachments m) ->
  exists e s',
    SMTPClient.send_email fs relay (Some m) s = (Raise e, s') /\
    wire s' = wire s /\ stdout s' = stdout s /\
    (well_formed m ->
     forall pre file post,
       attachments m = pre ++ file :: post ->
       Forall (readable fs) pre ->
       fs !! file = None ->
       e = Exc FileNotFoundError ("Could not find file: " +:+ file)).
Proof.
  intros Hex. destruct (well_formed_dec m) as [Hm|Hm].
  - destruct (first_bad_attachment fs _ Hex)
      as (pre0 & file0 & post0 & Hsplit0 & Hpre0 & Hbad0).
    destruct (send_email_stops_at fs relay m s pre0 post0 file0
                Hm Hsplit0 Hpre0 Hbad0)
      as (e & s' & Hrun & Hw & Ho & Hnone & _).
    exists e, s'. split; [exact Hrun|]. split; [exact Hw|].
    split; [exact Ho|].
    intros _ pre file post Hsplit Hpre Hf.
    assert (Hbad : ~ readable fs file).
    { intros [data Hd]. pose proof (eq_trans (eq_sym Hf) Hd). discriminate. }
    rewrite Hsplit0 in Hsplit.
    destruct (first_bad_unique fs _ _ _ _ _ _ Hsplit Hpre0 Hbad0 Hpre Hbad)
      as [_ ->].
    by apply Hnone.
  - destruct (compose_ill_formed m s Hm) as [e He].
    exists e, s. split; [|by repeat split].
    unfold SMTPClient.send_email. unfold bind at 1.
    fold (compose m). by rewrite He.
Qed.

Lemma with_missing_well_formed : well_formed with_missing.
Proof. repeat split; discriminate. Qed.

Lemma fs_notes_readable : Forall (readable fs_notes) ["notes.txt"].
Proof.
  constructor; [|constructor].
  exists [Byte.x4d; Byte.x61; Byte.x6e]. vm_compute. reflexivity.
Qed.

Lemma fs_notes_missing : ~ readable fs_notes "missing.txt".
Proof. intros [data Hd]. vm_compute in Hd. discriminate. Qed.

Lemma with_missing_bad :
  Exists (fun file => ~ readable fs_notes file) (attachments with_missing).
Proof. apply Exists_cons_tl, Exists_cons_hd. exact fs_notes_missing. Qed.

Lemma send_email_bad_attachment_witness :
  Exists (fun file => ~ readable fs_notes file) (attachments with_missing) /\
  exists e s',
    SMTPClient.send_email fs_notes relay_accepting (Some with_missing)
      fresh = (Raise e, s') /\
    wire s' = wire fresh /\ stdout s' = stdout fresh /\
    (well_formed with_missing ->
     forall pre file post,
       attachments with_missing = pre ++ file :: post ->
       Forall (readable fs_notes) pre ->
       fs_notes !! file = None ->
       e = Exc FileNotFoundError ("Could not find file: " +:+ file)).
Proof.
  split; [exact with_missing_bad|].
  apply (send_email_bad_attachment fs_notes relay_accepting with_missing
           fresh).
  exact with_missing_bad.
Defined.

(** The run on the missing second attachment, written out: the first
    attachment is in the message of the client, and nothing went out. *)
Example send_email_missing_attachment_run :
  SMTPClient.send_email fs_notes relay_accepting (Some with_missing)
    fresh =
    (Raise (Exc FileNotFoundError "Could not find file: missing.txt"),
     {| self :=
          {| _cfg := _cfg (SMTPClient.__init__ environ_ok);
             _message :=
               {| mp_headers :=
                    [("Content-Type", "multipart/alternative");
                     ("MIME-Version", "1.0"); ("Subject", "Hi");
                     ("From", "odyssey@example.com");
                     ("To", "a@example.com")];
                  mp_payload :=
                    [MIMEText "hello" "plain";
                     MIMEText "<p>hello</p>" "html";
                     attachment_part "notes.txt"
                       [Byte.x4d; Byte.x61; Byte.x6e]] |} |};
        wire := [];
        stdout := [] |}).
Proof. vm_compute. reflexivity. Qed.

(** C5, as stated, fails, in two ways. The attachment [secret.bin] exists
    and cannot be read, so it is no existing readable file, and
    [send_email] raises the [PermissionError] of [open], not
    [FileNotFoundError]. And with an empty subject the attachment that
    does not exist is not looked at: the check of the composer raises
    first. *)
Lemma send_email_locked_attachment :
  (well_formed with_locked /\
   In "secret.bin" (attachments with_locked) /\
   ~ readable fs_locked "secret.bin" /\
   fst (SMTPClient.send_email fs_locked relay_accepting (Some with_locked)
          fresh) =
     Raise (Exc PermissionError
              "[Errno 13] Permission denied: 'secret.bin'") /\
   ~ (exists msg s',
        SMTPClient.send_email fs_locked relay_accepting (Some with_locked)
          fresh = (Raise (Exc FileNotFoundError msg), s'))) /\
  (In "missing.txt" (attachments no_subject_missing) /\
   ~ readable fs_empty "missing.txt" /\
   fst (SMTPClient.send_email fs_empty relay_accepting
          (Some no_subject_missing) fresh) =
     Raise (Exc NameError "name 'RuntTimeError' is not defined") /\
   ~ (exists msg s',
        SMTPClient.send_email fs_empty relay_accepting
          (Some no_subject_missing) fresh =
          (Raise (Exc FileNotFoundError msg), s'))).
Proof.
  split.
  - split; [repeat split; discriminate|].
    split; [left; reflexivity|].
    split; [intros [data Hd]; vm_compute in Hd; discriminate|].
    split; [vm_compute; reflexivity|].
    intros (msg & s' & Hrun). vm_compute in Hrun. discriminate.
  - split; [left; reflexivity|].
    split; [intros [data Hd]; vm_compute in Hd; discriminate|].
    split; [vm_compute; reflexivity|].
    intros (msg & s' & Hrun). vm_compute in Hrun. discriminate.
Qed.

(** ** Construction *)

(** C6. Building the client never fails, whatever the environment holds:
    the object is made with whatever [os.getenv] gave, empty strings
    included, and [__post_init__], which nothing calls, would not raise
    either. *)
Theorem construction_never_fails (environ : gmap string string) :
  exists client,
    SMTPClient.new environ = Ok client /\
    sender_email_address (_cfg client) =
      getenv environ "SENDER_EMAIL_ADDRESS" "" /\
    google_smtp_app_passwd (_cfg client) =
      getenv environ "GOOGLE_SMTP_APP_PASS" "" /\
    SMTPClient.__post_init__ client = Ok tt.
Proof.
  exists (SMTPClient.__init__ environ).
  split; [reflexivity|]. split; [reflexivity|]. split; reflexivity.
Qed.

(** Both variables missing: the client is built, with an empty sender
    address and an empty secret. *)
Example construction_with_empty_environment :
  SMTPClient.new ∅ =
    Ok {| _cfg := {| sender_email_address := "";
                     google_smtp_app_passwd := "";
                     smtp_server := "smtp.gmail.com";
                     smtp_port := "465";
                     security_contract := "SSL" |};
          _message := MIMEMultipart_new "alternative" |}.
Proof. vm_compute. reflexivity. Qed.

(** Both variables set to the empty string: the client is built all the
    same. *)
Example construction_with_empty_values :
  SMTPClient.new
    {[ "SENDER_EMAIL_ADDRESS" := ""; "GOOGLE_SMTP_APP_PASS" := "" ]} =
    Ok {| _cfg := {| sender_email_address := "";
                     google_smtp_app_passwd := "";
                     smtp_server := "smtp.gmail.com";
                     smtp_port := "465";
                     security_contract := "SSL" |};
          _message := MIMEMultipart_new "alternative" |}.
Proof. vm_compute. reflexivity. Qed.

(** ** The facade *)

(** A call of [SMTPClient.send_email] that returns, returns [None]. *)
Lemma SMTPClient_send_email_None (fs : FileSystem) (relay : Relay)
    (m : option EmailMessage) (s s' : State) (v : pyval) :
  SMTPClient.send_email fs relay m s = (Ok v, s') -> v = PyNone.
Proof.
  destruct m as [m|]; unfold SMTPClient.send_email.
  - unfold bind at 1.
    destruct (SMTPClient._init_MIMEMultipart_email _ _ _ _ s) as [[[]|e] s1];
      [|discriminate].
    unfold bind at 1.
    destruct ((if SMTPClient.list_truthy (attachments m)
               then SMTPClient._add_attachments fs (attachments m)
               else ret tt) s1) as [[[]|e] s2]; [|discriminate].
    unfold bind.
    destruct (SMTPClient.deliver relay s2) as [[[]|e] s3]; [|discriminate].
    unfold ret. congruence.
  - rewrite (raise_bound _ _ _ _ bound_SMTPEmailException). discriminate.
Qed.

(** Over the [SMTPClient] of this module the facade and its client give
    the same result, as the client itself only ever returns [None]. *)
Lemma facade_agrees_with_SMTPClient (fs : FileSystem) (relay : Relay)
    (m : option EmailMessage) (s : State) :
  EmailClient.send_email fs relay m s = SMTPClient.send_email fs relay m s.
Proof.
  unfold EmailClient.send_email, EmailClient.send_email_via, bind.
  destruct (SMTPClient.send_email fs relay m s) as [[v|e] s'] eqn:Hrun.
  - apply SMTPClient_send_email_None in Hrun. by subst.
  - reflexivity.
Qed.


(** ** Sending twice *)

Lemma after_send_truthy (fs : FileSystem) (m : EmailMessage) (s : State) :
  Message_truthy (_message (self (after_send fs m s))) = true.
Proof.
  unfold after_send, with_message, attach_all, composed, Message_truthy,
    Message_len. cbn.
  rewrite length_app. cbn. apply negb_true_iff, Nat.eqb_neq. lia.
Qed.

(** The parts in the client after a call on a client that has sent nothing:
    the two bodies and then the attachments. *)
Lemma after_send_fresh (fs : FileSystem) (environ : gmap string string)
    (m : EmailMessage) :
  mp_payload (_message (self (after_send fs m
                                (boot (SMTPClient.__init__ environ))))) =
    [MIMEText (plain_text_body m) "plain"; MIMEText (html_body m) "html"] ++
    attachment_parts fs (attachments m).
Proof. reflexivity. Qed.

(** The parts in the client after a call on a client that has sent before:
    what was there, and the new parts after it. *)
Lemma after_send_again (fs : FileSystem) (m : EmailMessage) (s : State) :
  Message_truthy (_message (self s)) = true ->
  mp_payload (_message (self (after_send fs m s))) =
    mp_payload (_message (self s)) ++
    [MIMEText (plain_text_body m) "plain"; MIMEText (html_body m) "html"] ++
    attachment_parts fs (attachments m).
Proof.
  intros Ht. unfold after_send, with_message, attach_all, composed. cbn.
  rewrite Ht. by rewrite <- app_assoc.
Qed.

(** C8. Two calls of [send_email] with the same message on one client, with
    a relay that accepts or fails with an exception: both calls return
    [None], and the message that the client holds after the second call is
    not the one it held after the first: it has every part twice. No
    [sendmail] reaches the network in either call. *)
Theorem send_email_twice (fs : FileSystem) (relay : Relay)
    (environ : gmap string string) (m : EmailMessage) :
  well_formed m -> Forall (readable fs) (attachments m) ->
  relay_raises_exceptions relay ->
  exists s1 s2,
    SMTPClient.send_email fs relay (Some m)
      (boot (SMTPClient.__init__ environ)) = (Ok PyNone, s1) /\
    SMTPClient.send_email fs relay (Some m) s1 = (Ok PyNone, s2) /\
    mp_payload (_message (self s1)) =
      [MIMEText (plain_text_body m) "plain"; MIMEText (html_body m) "html"] ++
      attachment_parts fs (attachments m) /\
    mp_payload (_message (self s2)) =
      mp_payload (_message (self s1)) ++ mp_payload (_message (self s1)) /\
    _message (self s2) <> _message (self s1) /\
    filter is_SendMail (wire s2) = [].
Proof.
  intros Hm Hfiles Hr.
  set (s0 := boot (SMTPClient.__init__ environ)).
  destruct (deliver_total relay (after_send fs m s0) Hr)
    as (s1 & line1 & Hd1 & Hself1 & _ & Hwire1).
  destruct (deliver_total relay (after_send fs m s1) Hr)
    as (s2 & line2 & Hd2 & Hself2 & _ & Hwire2).
  assert (Hp1 : mp_payload (_message (self s1)) =
                [MIMEText (plain_text_body m) "plain";
                 MIMEText (html_body m) "html"] ++
                attachment_parts fs (attachments m)).
  { rewrite Hself1. apply after_send_fresh. }
  assert (Hp2 : mp_payload (_message (self s2)) =
                mp_payload (_message (self s1)) ++
                mp_payload (_message (self s1))).
  { rewrite Hself2, after_send_again.
    - by rewrite Hp1.
    - rewrite Hself1. apply after_send_truthy. }
  exists s1, s2. repeat split.
  - rewrite (send_email_reaches_deliver _ _ _ _ Hm Hfiles).
    unfold bind. by rewrite Hd1.
  - rewrite (send_email_reaches_deliver _ _ _ _ Hm Hfiles).
    unfold bind. by rewrite Hd2.
  - exact Hp1.
  - exact Hp2.
  - intros Heq. apply (f_equal (fun msg => length (mp_payload msg))) in Heq.
    rewrite Hp2, length_app, Hp1 in Heq. cbn in Heq. lia.
  - rewrite Hwire2. cbn. exact Hwire1.
Qed.

Lemma send_email_twice_witness :
  well_formed hello /\
  exists s1 s2,
    SMTPClient.send_email fs_empty relay_accepting (Some hello)
      fresh = (Ok PyNone, s1) /\
    SMTPClient.send_email fs_empty relay_accepting (Some hello) s1 =
      (Ok PyNone, s2) /\
    mp_payload (_message (self s1)) =
      [MIMEText (plain_text_body hello) "plain";
       MIMEText (html_body hello) "html"] ++
      attachment_parts fs_empty (attachments hello) /\
    mp_payload (_message (self s2)) =
      mp_payload (_message (self s1)) ++ mp_payload (_message (self s1)) /\
    _message (self s2) <> _message (self s1) /\
    filter is_SendMail (wire s2) = [].
Proof.
  split; [exact hello_well_formed|].
  apply (send_email_twice fs_empty relay_accepting environ_ok hello).
  - exact hello_well_formed.
  - constructor.
  - exact I.
Defined.

(** The message in the client after the second of two calls with the
    message of the scenarios. *)
Example send_email_twice_run :
  _message
    (self (snd (SMTPClient.send_email fs_empty relay_accepting (Some hello)
                  (snd (SMTPClient.send_email fs_empty relay_accepting
                          (Some hello) fresh))))) =
    {| mp_headers :=
         [("Content-Type", "multipart/alternative"); ("MIME-Version", "1.0");
          ("Subject", "Hi"); ("From", "odyssey@example.com");
          ("To", "a@example.com");
          ("Subject", "Hi"); ("From", "odyssey@example.com");
          ("To", "a@example.com")];
       mp_payload :=
         [MIMEText "hello" "plain"; MIMEText "<p>hello</p>" "html";
          MIMEText "hello" "plain"; MIMEText "<p>hello</p>" "html"] |}.
Proof. vm_compute. reflexivity. Qed.

(** Two different mails through one client, as the script at the end of
    the module sends them: the message built for the second recipient still
    holds the headers and the bodies of the first mail. *)
Example second_mail_carries_first :
  _message
    (self (snd (SMTPClient.send_email fs_empty relay_accepting (Some goodbye)
                  (snd (SMTPClient.send_email fs_empty relay_accepting
                          (Some hello) fresh))))) =
    {| mp_headers :=
         [("Content-Type", "multipart/alternative"); ("MIME-Version", "1.0");
          ("Subject", "Hi"); ("From", "odyssey@example.com");
          ("To", "a@example.com");
          ("Subject", "Bye"); ("From", "odyssey@example.com");
          ("To", "b@example.com")];
       mp_payload :=
         [MIMEText "hello" "plain"; MIMEText "<p>hello</p>" "html";
          MIMEText "goodbye" "plain"; MIMEText "<p>goodbye</p>" "html"] |}.
Proof. vm_compute. reflexivity. Qed.

(** ** base64 *)

(** The turns of [pieces] are enough: the slices put together are the
    whole byte string. *)
Lemma pieces_concat (fuel : nat) (s : list Byte.byte) :
  length s <= fuel -> concat (base64.pieces fuel s) = s.
Proof.
  revert s. induction fuel as [|fuel IH]; intros s Hlen.
  - destruct s; [reflexivity|cbn in Hlen; lia].
  - destruct s as [|b s]; [reflexivity|].
    cbn [base64.pieces concat]. rewrite IH.
    + apply take_drop.
    + rewrite length_drop. cbn in Hlen. unfold base64.MAXBINSIZE. cbn. lia.
Qed.

(** With the turns that [encodebytes] allows, no byte is left out of the
    text. *)
Lemma encodebytes_pieces (s : list Byte.byte) :
  concat (base64.pieces (length s) s) = s.
Proof. by apply pieces_concat. Qed.

(** ** The part of an attachment *)

(** C9. For a file that can be read, one turn of the loop attaches a part
    whose payload is the base64 text of the bytes of the file and whose
    headers are, in order, Content-Type (application/octet-stream),
    MIME-Version, Content-Transfer-Encoding (base64) and a header named
    [Content] with the value [attachment; filename = <path>]. The part has
    no Content-Disposition header. *)
Theorem add_attachment_part (fs : FileSystem) (file : Path)
    (data : list Byte.byte) (s : State) :
  fs !! file = Some (File data) ->
  exists part,
    SMTPClient.add_attachment fs file s =
      (Ok tt, with_message s (Message_attach (BasePart part)
                                (_message (self s)))) /\
    mb_payload part = StrPayload (base64.encodebytes data) /\
    mb_headers part =
      [("Content-Type", "application/octet-stream");
       ("MIME-Version", "1.0");
       ("Content-Transfer-Encoding", "base64");
       ("Content", "attachment; filename = " +:+ file)] /\
    "Content-Disposition" ∉ header_names (mb_headers part).
Proof.
  intros Hf. eexists. split; [by apply add_attachment_file|].
  split; [reflexivity|]. split; [reflexivity|].
  cbn. rewrite !elem_of_cons, elem_of_nil.
  intros [H|[H|[H|[H|[]]]]]; discriminate.
Qed.

Lemma add_attachment_part_witness :
  fs_notes !! "notes.txt" = Some (File [Byte.x4d; Byte.x61; Byte.x6e]) /\
  exists part,
    SMTPClient.add_attachment fs_notes "notes.txt"
      fresh =
      (Ok tt, with_message fresh
                (Message_attach (BasePart part)
                   (_message (self fresh)))) /\
    mb_payload part =
      StrPayload (base64.encodebytes [Byte.x4d; Byte.x61; Byte.x6e]) /\
    mb_headers part =
      [("Content-Type", "application/octet-stream");
       ("MIME-Version", "1.0");
       ("Content-Transfer-Encoding", "base64");
       ("Content", "attachment; filename = " +:+ "notes.txt")] /\
    "Content-Disposition" ∉ header_names (mb_headers part).
Proof.
  assert (Hf : fs_notes !! "notes.txt" =
               Some (File [Byte.x4d; Byte.x61; Byte.x6e]))
    by (vm_compute; reflexivity).
  split; [exact Hf|].
  exact (add_attachment_part fs_notes "notes.txt"
           [Byte.x4d; Byte.x61; Byte.x6e] fresh Hf).
Defined.

(** The three bytes of [Man] give the line [TWFu]. *)
Example encodebytes_Man :
  base64.encodebytes [Byte.x4d; Byte.x61; Byte.x6e] =
    "TWFu" +:+ base64.newline.
Proof. vm_compute. reflexivity. Qed.

(** One and two bytes are padded. *)
Example encodebytes_padding :
  base64.encodebytes [Byte.x4d] = "TQ==" +:+ base64.newline /\
  base64.encodebytes [Byte.x4d; Byte.x61] = "TWE=" +:+ base64.newline.
Proof. split; vm_compute; reflexivity. Qed.

(** No byte, no line. *)
Example encodebytes_empty : base64.encodebytes [] = "".
Proof. reflexivity. Qed.

(** ** A call without a message *)

(** C10. [send_email(None)] raises [SMTPEmailException] with the message
    [Must Specify Message Contents for Mail Transfer]; the client, the
    network and standard output are as they were before the call. *)
Theorem send_email_None (fs : FileSystem) (relay : Relay) (s : State) :
  SMTPClient.send_email fs relay None s =
    (Raise (Exc SMTPEmailException
              "Must Specify Message Contents for Mail Transfer"), s).
Proof.
  unfold SMTPClient.send_email.
  apply raise_bound. exact bound_SMTPEmailException.
Qed.

(** * Further properties *)

(** ** What a call leaves alone *)

Lemma same_io_refl (s : State) : same_io s s.
Proof. by repeat split. Qed.

Lemma same_io_trans (s1 s2 s3 : State) :
  same_io s1 s2 -> same_io s2 s3 -> same_io s1 s3.
Proof.
  intros (Hw1 & Ho1 & Hc1) (Hw2 & Ho2 & Hc2).
  repeat split; congruence.
Qed.

Lemma quiet_ret {A} (a : A) : quiet (ret a).
Proof. intros s. apply same_io_refl. Qed.

Lemma quiet_raise {A} (e : exn) : quiet (@raise A e).
Proof. intros s. apply same_io_refl. Qed.

Lemma quiet_bind {A B} (m : M A) (k : A -> M B) :
  quiet m -> (forall a, quiet (k a)) -> quiet (bind m k).
Proof.
  intros Hm Hk s. unfold bind. specialize (Hm s).
  destruct (m s) as [[a|e] s1]; cbn in Hm |- *.
  - apply (same_io_trans _ _ _ Hm), Hk.
  - exact Hm.
Qed.

Lemma quiet_get_message : quiet get_message.
Proof. intros s. apply same_io_refl. Qed.

Lemma quiet_get_cfg : quiet get_cfg.
Proof. intros s. apply same_io_refl. Qed.

Lemma quiet_set_message (msg : MIMEMultipart) : quiet (set_message msg).
Proof. intros s. by repeat split. Qed.

Lemma quiet_load_name (n : string) : quiet (load_name n).
Proof.
  unfold load_name.
  destruct (namespace !! n); [apply quiet_ret|apply quiet_raise].
Qed.

Lemma quiet_raise_named {A} (name msg : string) :
  quiet (@raise_named A name msg).
Proof.
  unfold raise_named. apply quiet_bind; [apply quiet_load_name|].
  intros [c|n]; apply quiet_raise.
Qed.

Lemma quiet_if {A} (b : bool) (m1 m2 : M A) :
  quiet m1 -> quiet m2 -> quiet (if b then m1 else m2).
Proof. by destruct b. Qed.

Lemma quiet_open_read (fs : FileSystem) (file : Path) :
  quiet (open_read fs file).
Proof.
  unfold open_read.
  destruct (fs !! file) as [[data|e|e]|];
    (apply quiet_ret || apply quiet_raise).
Qed.

Lemma quiet_Path_exists (fs : FileSystem) (file : Path) :
  quiet (Path_exists fs file).
Proof.
  unfold Path_exists.
  destruct (fs !! file) as [[data|e|e]|];
    (apply quiet_ret || apply quiet_raise).
Qed.

Create HintDb quiet.
#[local] Hint Resolve quiet_ret quiet_raise quiet_get_message quiet_get_cfg
  quiet_set_message quiet_load_name quiet_raise_named quiet_open_read
  quiet_Path_exists : quiet.

Ltac quiet_steps :=
  cbv zeta;
  repeat first
    [ solve [auto with quiet]
    | apply quiet_bind; [|intros ?]
    | apply quiet_if ].

(** The composer touches the message of the client and nothing else. *)
Lemma quiet_compose (subject dest plain html : string) :
  quiet (SMTPClient._init_MIMEMultipart_email subject dest plain html).
Proof. unfold SMTPClient._init_MIMEMultipart_email. quiet_steps. Qed.

Lemma quiet_add_attachment (fs : FileSystem) (file : Path) :
  quiet (SMTPClient.add_attachment fs file).
Proof. unfold SMTPClient.add_attachment. quiet_steps. Qed.

Lemma quiet_add_attachments (fs : FileSystem) (files : list Path) :
  quiet (SMTPClient._add_attachments fs files).
Proof.
  induction files as [|file files IH]; cbn [SMTPClient._add_attachments].
  - apply quiet_ret.
  - apply quiet_bind; [apply quiet_add_attachment|intros _; exact IH].
Qed.

(** ** The shape of a session *)

(** A handler prints at most one line and does nothing else. *)
Lemma handlers_effect (e : exn) (s : State) :
  self (snd (SMTPClient.handlers e s)) = self s /\
  wire (snd (SMTPClient.handlers e s)) = wire s.
Proof.
  unfold SMTPClient.handlers.
  repeat match goal with
         | |- context [if ?b then _ else _] => destruct b
         end; by split.
Qed.

(** What the [try] statement puts on the network is the session of
    [session_outcome]; the client object is not touched. *)
Lemma deliver_shape (relay : Relay) (s : State) :
  self (snd (SMTPClient.deliver relay s)) = self s /\
  wire (snd (SMTPClient.deliver relay s)) =
    wire s ++ snd (session_outcome relay (_cfg (self s))).
Proof.
  rewrite deliver_run.
  match goal with
  | |- context [SMTPClient.handlers ?e ?st] =>
      destruct (handlers_effect e st) as [Hself Hwire];
      rewrite Hself, Hwire
  end.
  by split.
Qed.

(** A session has one attempt to connect in it. *)
Lemma session_one_connect (relay : Relay) (cfg : SMTPConfig) :
  length (filter is_Connect (snd (session_outcome relay cfg))) = 1.
Proof.
  unfold session_outcome.
  destruct (on_connect relay) as [ec|].
  - by destruct (refused_greeting ec).
  - destruct (login_lost relay); [reflexivity|].
    by destruct (on_quit relay).
Qed.

(** The sessions there are: a socket that could not be opened, a greeting
    that was refused or lost, a connection lost at the login, and the
    session that runs to QUIT. Every one that opened a socket ends with
    the socket closed. *)
Lemma session_shapes (relay : Relay) (cfg : SMTPConfig) :
  (exists e, on_connect relay = Some e /\ refused_greeting e = false /\
             snd (session_outcome relay cfg) =
               [Connect (smtp_server cfg) (smtp_port cfg)]) \/
  (exists e, on_connect relay = Some e /\ refused_greeting e = true /\
             snd (session_outcome relay cfg) =
               [Connect (smtp_server cfg) (smtp_port cfg); Close]) \/
  (on_connect relay = None /\ login_lost relay = true /\
   snd (session_outcome relay cfg) =
     [Connect (smtp_server cfg) (smtp_port cfg);
      Login (sender_email_address cfg) (google_smtp_app_passwd cfg);
      Close]) \/
  (on_connect relay = None /\ login_lost relay = false /\
   snd (session_outcome relay cfg) =
     [Connect (smtp_server cfg) (smtp_port cfg);
      Login (sender_email_address cfg) (google_smtp_app_passwd cfg);
      Quit; Close]).
Proof.
  unfold session_outcome.
  destruct (on_connect relay) as [ec|].
  - destruct (refused_greeting ec) eqn:Hg.
    + right. left. by exists ec.
    + left. by exists ec.
  - destruct (login_lost relay).
    + right. right. left. by repeat split.
    + right. right. right. split; [reflexivity|]. split; [reflexivity|].
      by destruct (on_quit relay).
Qed.

(** [send_email] on a message, step by step. *)
Lemma send_email_steps (fs : FileSystem) (relay : Relay)
    (m : EmailMessage) (s : State) :
  SMTPClient.send_email fs relay (Some m) s =
    match compose m s with
    | (Ok _, s1) =>
        match (if SMTPClient.list_truthy (attachments m)
               then SMTPClient._add_attachments fs (attachments m)
               else ret tt) s1 with
        | (Ok _, s2) => (SMTPClient.deliver relay ;;; ret PyNone) s2
        | (Raise e, s2) => (Raise e, s2)
        end
    | (Raise e, s1) => (Raise e, s1)
    end.
Proof.
  unfold SMTPClient.send_email, compose. unfold bind at 1.
  destruct (SMTPClient._init_MIMEMultipart_email _ _ _ _ s) as [[[]|e] s1];
    [|reflexivity].
  unfold bind at 1.
  by destruct ((if SMTPClient.list_truthy (attachments m)
                then SMTPClient._add_attachments fs (attachments m)
                else ret tt) s1) as [[[]|e] s2].
Qed.

(** The two ways through [send_email]: it raises before the [try]
    statement, having touched at most the message of the client, or it
    reaches the [try] statement in a state that differs from the first at
    most in that message. *)
Lemma send_email_cases (fs : FileSystem) (relay : Relay)
    (arg : option EmailMessage) (s : State) :
  (exists e s1,
     SMTPClient.send_email fs relay arg s = (Raise e, s1) /\ same_io s s1) \/
  (exists s1,
     same_io s s1 /\
     SMTPClient.send_email fs relay arg s =
       (SMTPClient.deliver relay ;;; ret PyNone) s1).
Proof.
  destruct arg as [m|].
  - rewrite send_email_steps.
    pose proof (quiet_compose (subject m) (destination_email_address m)
                  (plain_text_body m) (html_body m) s) as Hc.
    fold (compose m) in Hc.
    destruct (compose m s) as [[[]|e] s1]; cbn in Hc.
    + assert (Ha : quiet (if SMTPClient.list_truthy (attachments m)
                          then SMTPClient._add_attachments fs (attachments m)
                          else ret tt))
        by (apply quiet_if; [apply quiet_add_attachments|apply quiet_ret]).
      specialize (Ha s1).
      destruct ((if SMTPClient.list_truthy (attachments m)
                 then SMTPClient._add_attachments fs (attachments m)
                 else ret tt) s1) as [[[]|e] s2]; cbn in Ha.
      * right. exists s2. split; [|reflexivity].
        by apply (same_io_trans _ _ _ Hc).
      * left. exists e, s2. split; [reflexivity|].
        by apply (same_io_trans _ _ _ Hc).
    + left. by exists e, s1.
  - left. eexists _, s. unfold SMTPClient.send_email.
    rewrite (raise_bound _ _ _ _ bound_SMTPEmailException).
    split; [reflexivity|apply same_io_refl].
Qed.

(** The events of one call: none, when the call raises before the [try]
    statement, or one session. *)
Lemma send_email_events (fs : FileSystem) (relay : Relay)
    (arg : option EmailMessage) (s : State) :
  exists evs,
    wire (snd (SMTPClient.send_email fs relay arg s)) = wire s ++ evs /\
    (evs = [] \/ evs = snd (session_outcome relay (_cfg (self s)))).
Proof.
  destruct (send_email_cases fs relay arg s)
    as [(e & s1 & -> & Hw & _ & _) | (s1 & (Hw & _ & Hc) & ->)].
  - exists []. cbn. rewrite app_nil_r. split; [exact Hw|by left].
  - assert (Hsnd : snd ((SMTPClient.deliver relay ;;; ret PyNone) s1) =
                   snd (SMTPClient.deliver relay s1)).
    { unfold bind. by destruct (SMTPClient.deliver relay s1) as [[[]|?] ?]. }
    rewrite Hsnd. destruct (deliver_shape relay s1) as [_ Hwire].
    rewrite Hwire, Hw, Hc. eexists. split; [reflexivity|by right].
Qed.

(** X1. No call of [send_email] puts a [sendmail] on the network, whatever
    the argument, the files, the relay and the state of the client. *)
Theorem send_email_never_transmits (fs : FileSystem) (relay : Relay)
    (arg : option EmailMessage) (s : State) :
  filter is_SendMail (wire (snd (SMTPClient.send_email fs relay arg s))) =
    filter is_SendMail (wire s).
Proof.
  destruct (send_email_events fs relay arg s) as (evs & -> & [-> | ->]);
    rewrite filter_app, ?session_no_sendmail; cbn; by rewrite app_nil_r.
Qed.

(** X2. A call of [send_email] tries to connect at most once: there is no
    second attempt after a failure. *)
Theorem send_email_one_attempt (fs : FileSystem) (relay : Relay)
    (arg : option EmailMessage) (s : State) :
  exists evs,
    wire (snd (SMTPClient.send_email fs relay arg s)) = wire s ++ evs /\
    length (filter is_Connect evs) <= 1.
Proof.
  destruct (send_email_events fs relay arg s) as (evs & Hw & [-> | ->]);
    eexists; (split; [exact Hw|]).
  - cbn. lia.
  - by rewrite session_one_connect.
Qed.

(** X3. A connection that smtplib holds for [send_email] is closed before
    the call ends. The events of a call are none at all (the call raised
    before the [try] statement), or one of four sessions: the attempt to
    connect alone, when the constructor raised an error after which smtplib
    has no socket to close; the attempt and the closing, when the greeting
    was refused or lost; connection, login and closing, when the login
    found the connection lost, in which case no QUIT is written; and
    connection, login, QUIT and closing in every other case, whether the
    login succeeded or not and whatever QUIT was answered. *)
Theorem send_email_closes_session (fs : FileSystem) (relay : Relay)
    (arg : option EmailMessage) (s : State) :
  exists evs,
    wire (snd (SMTPClient.send_email fs relay arg s)) = wire s ++ evs /\
    (evs = [] \/
     (exists e, on_connect relay = Some e /\ refused_greeting e = false /\
                evs = [Connect (smtp_server (_cfg (self s)))
                               (smtp_port (_cfg (self s)))]) \/
     (exists e, on_connect relay = Some e /\ refused_greeting e = true /\
                evs = [Connect (smtp_server (_cfg (self s)))
                               (smtp_port (_cfg (self s))); Close]) \/
     (on_connect relay = None /\ login_lost relay = true /\
      evs = [Connect (smtp_server (_cfg (self s)))
                     (smtp_port (_cfg (self s)));
             Login (sender_email_address (_cfg (self s)))
                   (google_smtp_app_passwd (_cfg (self s)));
             Close]) \/
     (on_connect relay = None /\ login_lost relay = false /\
      evs = [Connect (smtp_server (_cfg (self s)))
                     (smtp_port (_cfg (self s)));
             Login (sender_email_address (_cfg (self s)))
                   (google_smtp_app_passwd (_cfg (self s)));
             Quit; Close])).
Proof.
  destruct (send_email_events fs relay arg s) as (evs & Hw & [-> | ->]);
    eexists; (split; [exact Hw|]); [by left|right].
  apply session_shapes.
Qed.

Lemma send_email_keeps_cfg_aux (fs : FileSystem) (relay : Relay)
    (arg : option EmailMessage) (s : State) :
  _cfg (self (snd (SMTPClient.send_email fs relay arg s))) = _cfg (self s).
Proof.
  destruct (send_email_cases fs relay arg s)
    as [(e & s1 & -> & _ & _ & Hc) | (s1 & (_ & _ & Hc) & ->)].
  - exact Hc.
  - unfold bind.
    pose proof (deliver_shape relay s1) as [Hself _].
    destruct (SMTPClient.deliver relay s1) as [[[]|?] s2]; cbn in *;
      by rewrite Hself.
Qed.

(** X4. No call of [send_email] changes the configuration of the client:
    sender address, secret, host, port and security mode stay as
    [__init__] set them. *)
Theorem send_email_keeps_cfg (fs : FileSystem) (relay : Relay)
    (arg : option EmailMessage) (s : State) :
  _cfg (self (snd (SMTPClient.send_email fs relay arg s))) = _cfg (self s).
Proof. apply send_email_keeps_cfg_aux. Qed.

(** ** The message of the client *)

(** One turn of the loop attaches one part or raises with the state as it
    was. *)
Lemma add_attachment_cases (fs : FileSystem) (file : Path) (s : State) :
  (exists data,
     fs !! file = Some (File data) /\
     SMTPClient.add_attachment fs file s =
       (Ok tt, with_message s (Message_attach (attachment_part file data)
                                 (_message (self s))))) \/
  (~ readable fs file /\
   exists e, SMTPClient.add_attachment fs file s = (Raise e, s)).
Proof.
  destruct (readable_dec fs file) as [[data Hf]|Hbad].
  - left. exists data. split; [exact Hf|by apply add_attachment_file].
  - right. split; [exact Hbad|].
    destruct (add_attachment_bad fs file Hbad) as (e & He & _).
    by exists e.
Qed.

(** Whatever the loop returns, it has attached the parts of some first
    files of the list and done nothing else. *)
Lemma add_attachments_state (fs : FileSystem) (files : list Path) :
  forall s, exists r done,
    SMTPClient._add_attachments fs files s =
      (r, with_message s (attach_all (attachment_parts fs done)
                            (_message (self s)))) /\
    done `prefix_of` files /\ Forall (readable fs) done.
Proof.
  induction files as [|file files IH]; intros s.
  - exists (Ok tt), []. cbn. unfold ret.
    rewrite attach_all_nil, with_message_id. by repeat split.
  - cbn [SMTPClient._add_attachments]. unfold bind at 1.
    destruct (add_attachment_cases fs file s)
      as [(data & Hf & ->)|(Hbad & e & ->)].
    + destruct (IH (with_message s (Message_attach (attachment_part file data)
                                      (_message (self s)))))
        as (r & done & -> & Hpre & Hdone).
      exists r, (file :: done). rewrite (attachment_parts_cons _ _ _ _ Hf).
      split; [|split].
      * unfold attach_all, Message_attach, with_message. cbn.
        by rewrite <- app_assoc.
      * by apply prefix_cons.
      * constructor; [by exists data|exact Hdone].
    + exists (Raise e), []. cbn. rewrite attach_all_nil, with_message_id.
      split; [reflexivity|]. split; [apply prefix_nil|constructor].
Qed.

(** The message of the client after a call: the one before the call, or
    that one with the composition of the message and the parts of some
    first attachments. *)
Lemma send_email_message (fs : FileSystem) (relay : Relay)
    (arg : option EmailMessage) (s : State) :
  _message (self (snd (SMTPClient.send_email fs relay arg s))) =
    _message (self s) \/
  exists m done,
    arg = Some m /\ well_formed m /\
    done `prefix_of` attachments m /\ Forall (readable fs) done /\
    _message (self (snd (SMTPClient.send_email fs relay arg s))) =
      attach_all (attachment_parts fs done)
        (composed (sender_email_address (_cfg (self s))) m
           (_message (self s))).
Proof.
  destruct arg as [m|].
  - rewrite send_email_steps.
    destruct (well_formed_dec m) as [Hm|Hm].
    + right. unfold compose. rewrite (compose_appends _ _ Hm).
      set (s1 := with_message s _).
      assert (Hatt : exists r done,
                 (if SMTPClient.list_truthy (attachments m)
                  then SMTPClient._add_attachments fs (attachments m)
                  else ret tt) s1 =
                   (r, with_message s1 (attach_all (attachment_parts fs done)
                                          (_message (self s1)))) /\
                 done `prefix_of` attachments m /\ Forall (readable fs) done).
      { destruct (attachments m) as [|f fl] eqn:Hfl.
        - exists (Ok tt), []. cbn. unfold ret.
          rewrite attach_all_nil, with_message_id. by repeat split.
        - cbn [SMTPClient.list_truthy]. apply add_attachments_state. }
      destruct Hatt as (r & done & -> & Hpre & Hdone).
      exists m, done.
      split; [reflexivity|]. split; [exact Hm|]. split; [exact Hpre|].
      split; [exact Hdone|].
      destruct r as [[]|e]; [|reflexivity].
      unfold bind.
      pose proof (deliver_shape relay
                    (with_message s1 (attach_all (attachment_parts fs done)
                                        (_message (self s1))))) as [Hself _].
      destruct (SMTPClient.deliver relay _) as [[[]|?] s3]; cbn in *;
        by rewrite Hself.
    + left. destruct (compose_ill_formed m s Hm) as [e ->]. reflexivity.
  - left. unfold SMTPClient.send_email.
    by rewrite (raise_bound _ _ _ _ bound_SMTPEmailException).
Qed.

Lemma composed_headers (sender : string) (m : EmailMessage)
    (old : MIMEMultipart) :
  Message_truthy old = true ->
  mp_headers (composed sender m old) =
    mp_headers old ++ [("Subject", subject m); ("From", sender);
                       ("To", destination_email_address m)] /\
  mp_payload (composed sender m old) =
    mp_payload old ++ [MIMEText (plain_text_body m) "plain";
                       MIMEText (html_body m) "html"].
Proof. intros Ht. unfold composed. by rewrite Ht. Qed.

(** X5. A call of [send_email] on a client whose message is true (it has a
    header) never takes anything out of that message: the headers and the
    parts that were there are still there, in the same order and before
    anything that the call added, also when the call raises. *)
Theorem send_email_only_appends (fs : FileSystem) (relay : Relay)
    (arg : option EmailMessage) (s : State) :
  Message_truthy (_message (self s)) = true ->
  extends s (snd (SMTPClient.send_email fs relay arg s)).
Proof.
  intros Ht. unfold extends.
  destruct (send_email_message fs relay arg s)
    as [->|(m & done & _ & _ & _ & _ & ->)]; [by split|].
  destruct (composed_headers (sender_email_address (_cfg (self s))) m _ Ht)
    as [Hh Hp].
  unfold attach_all. cbn [mp_headers mp_payload]. rewrite Hh, Hp. split.
  - by apply prefix_app_r.
  - rewrite <- app_assoc. by apply prefix_app_r.
Qed.

Lemma send_email_only_appends_witness :
  Message_truthy (_message (self fresh)) = true /\
  extends fresh
    (snd (SMTPClient.send_email fs_empty relay_accepting (Some hello) fresh)).
Proof.
  split; [reflexivity|].
  apply (send_email_only_appends fs_empty relay_accepting (Some hello) fresh).
  reflexivity.
Defined.

(** X6. In every state that a process can reach, the client has the
    configuration that [__init__] read from the environment, and its
    message still begins with the two headers of the constructor, so it is
    never empty: the test [not self._message] of the composer never
    succeeds and the message is never replaced. *)
Theorem reachable_invariant (environ : gmap string string) (s : State) :
  Reachable environ s ->
  _cfg (self s) = _cfg (SMTPClient.__init__ environ) /\
  Message_truthy (_message (self s)) = true /\
  exists rest,
    mp_headers (_message (self s)) =
      [("Content-Type", "multipart/alternative"); ("MIME-Version", "1.0")] ++
      rest.
Proof.
  induction 1 as [|fs relay arg s _ (Hcfg & Ht & rest & Hh)].
  - split; [reflexivity|]. split; [reflexivity|]. by exists [].
  - split; [by rewrite send_email_keeps_cfg_aux|].
    destruct (send_email_message fs relay arg s)
      as [->|(m & done & _ & _ & _ & _ & ->)].
    + split; [exact Ht|by exists rest].
    + destruct (composed_headers (sender_email_address (_cfg (self s))) m _ Ht)
        as [Hh' _].
      unfold attach_all, Message_truthy, Message_len.
      cbn [mp_headers mp_payload]. rewrite Hh', Hh. split.
      * reflexivity.
      * eexists. by rewrite <- app_assoc.
Qed.

Lemma reachable_invariant_witness :
  Reachable environ_ok
    (snd (SMTPClient.send_email fs_empty relay_accepting (Some hello)
            (boot (SMTPClient.__init__ environ_ok)))) /\
  _cfg (self (snd (SMTPClient.send_email fs_empty relay_accepting (Some hello)
                     (boot (SMTPClient.__init__ environ_ok))))) =
    _cfg (SMTPClient.__init__ environ_ok) /\
  Message_truthy
    (_message
       (self (snd (SMTPClient.send_email fs_empty relay_accepting (Some hello)
                     (boot (SMTPClient.__init__ environ_ok)))))) = true /\
  exists rest,
    mp_headers
      (_message
         (self (snd (SMTPClient.send_email fs_empty relay_accepting
                       (Some hello)
                       (boot (SMTPClient.__init__ environ_ok)))))) =
      [("Content-Type", "multipart/alternative"); ("MIME-Version", "1.0")] ++
      rest.
Proof.
  assert (Hr : Reachable environ_ok
                 (snd (SMTPClient.send_email fs_empty relay_accepting
                         (Some hello)
                         (boot (SMTPClient.__init__ environ_ok)))))
    by (apply Reachable_send, Reachable_boot).
  split; [exact Hr|].
  exact (reachable_invariant environ_ok _ Hr).
Defined.

(** ** Calls one after the other *)

(** The client object after a call with a well-formed message whose
    attachments can all be read, whatever the relay does. *)
Lemma send_email_self (fs : FileSystem) (relay : Relay)
    (m : EmailMessage) (s : State) :
  well_formed m -> Forall (readable fs) (attachments m) ->
  self (snd (SMTPClient.send_email fs relay (Some m) s)) =
    self (after_send fs m s).
Proof.
  intros Hm Hfiles. rewrite (send_email_reaches_deliver _ _ _ _ Hm Hfiles).
  unfold bind.
  pose proof (deliver_shape relay (after_send fs m s)) as [Hself _].
  by destruct (SMTPClient.deliver relay (after_send fs m s))
    as [[[]|?] s2]; cbn in *.
Qed.

Lemma send_times_message (fs : FileSystem) (relay : Relay)
    (m : EmailMessage) (n : nat) :
  well_formed m -> Forall (readable fs) (attachments m) ->
  forall s,
    Message_truthy (_message (self s)) = true ->
    _message (self (send_times fs relay m n s)) =
      {| mp_headers :=
           mp_headers (_message (self s)) ++
           concat (replicate n
                     [("Subject", subject m);
                      ("From", sender_email_address (_cfg (self s)));
                      ("To", destination_email_address m)]);
         mp_payload :=
           mp_payload (_message (self s)) ++
           concat (replicate n
                     ([MIMEText (plain_text_body m) "plain";
                       MIMEText (html_body m) "html"] ++
                      attachment_parts fs (attachments m))) |}.
Proof.
  intros Hm Hfiles. induction n as [|n IH]; intros s Ht.
  - cbn. rewrite !app_nil_r. by destruct (_message (self s)).
  - cbn [send_times].
    set (s1 := snd (SMTPClient.send_email fs relay (Some m) s)).
    assert (Hself : self s1 = self (after_send fs m s))
      by (by apply send_email_self).
    rewrite IH; [|rewrite Hself; apply after_send_truthy].
    rewrite Hself.
    destruct (composed_headers (sender_email_address (_cfg (self s))) m _ Ht)
      as [Hh Hp].
    unfold after_send, with_message, attach_all.
    cbn [self _cfg _message mp_headers mp_payload].
    rewrite Hh, Hp. cbn [replicate concat].
    f_equal; rewrite <- !app_assoc; reflexivity.
Qed.

(** X7. After [n] calls of [send_email] with one well-formed message whose
    attachments can be read, on a client that had sent nothing, the message
    of the client holds the two headers of the constructor followed by [n]
    times Subject, From, To, and [n] times the two bodies followed by the
    attachment parts. The relay has no part in it. *)
Theorem send_times_accumulates (fs : FileSystem) (relay : Relay)
    (environ : gmap string string) (m : EmailMessage) (n : nat) :
  well_formed m -> Forall (readable fs) (attachments m) ->
  _message (self (send_times fs relay m n
                    (boot (SMTPClient.__init__ environ)))) =
    {| mp_headers :=
         [("Content-Type", "multipart/alternative"); ("MIME-Version", "1.0")]
         ++ concat (replicate n
                      [("Subject", subject m);
                       ("From", getenv environ "SENDER_EMAIL_ADDRESS" "");
                       ("To", destination_email_address m)]);
       mp_payload :=
         concat (replicate n
                   ([MIMEText (plain_text_body m) "plain";
                     MIMEText (html_body m) "html"] ++
                    attachment_parts fs (attachments m))) |}.
Proof.
  intros Hm Hfiles.
  by rewrite (send_times_message fs relay m n Hm Hfiles).
Qed.

Lemma send_times_accumulates_witness :
  well_formed hello /\
  _message (self (send_times fs_empty relay_accepting hello 3
                    (boot (SMTPClient.__init__ environ_ok)))) =
    {| mp_headers :=
         [("Content-Type", "multipart/alternative"); ("MIME-Version", "1.0")]
         ++ concat (replicate 3
                      [("Subject", subject hello);
                       ("From", getenv environ_ok "SENDER_EMAIL_ADDRESS" "");
                       ("To", destination_email_address hello)]);
       mp_payload :=
         concat (replicate 3
                   ([MIMEText (plain_text_body hello) "plain";
                     MIMEText (html_body hello) "html"] ++
                    attachment_parts fs_empty (attachments hello))) |}.
Proof.
  split; [exact hello_well_formed|].
  apply (send_times_accumulates fs_empty relay_accepting environ_ok hello 3).
  - exact hello_well_formed.
  - constructor.
Defined.

(** X8. A call that stops at an attachment leaves its work in the client:
    for a well-formed message whose attachment [file] cannot be attached,
    the attachments before it being readable, the message of the client
    after the failed call holds the new Subject, From and To, the two
    bodies and the parts of the attachments before [file]. *)
Theorem send_email_failure_keeps_parts (fs : FileSystem) (relay : Relay)
    (m : EmailMessage) (s : State) (pre post : list Path) (file : Path) :
  well_formed m ->
  attachments m = pre ++ file :: post ->
  Forall (readable fs) pre ->
  ~ readable fs file ->
  _message (self (snd (SMTPClient.send_email fs relay (Some m) s))) =
    attach_all (attachment_parts fs pre)
      (composed (sender_email_address (_cfg (self s))) m
         (_message (self s))).
Proof.
  intros Hm Hsplit Hpre Hbad.
  destruct (add_attachment_bad fs file Hbad) as (e & Hraise & _).
  rewrite send_email_steps. unfold compose.
  rewrite (compose_appends _ _ Hm), Hsplit.
  assert (Ht : SMTPClient.list_truthy (pre ++ file :: post) = true)
    by (destruct pre; reflexivity).
  rewrite Ht, (add_attachments_stop fs pre post file e Hpre Hraise).
  reflexivity.
Qed.

Lemma send_email_failure_keeps_parts_witness :
  well_formed with_missing /\
  Forall (readable fs_notes) ["notes.txt"] /\
  ~ readable fs_notes "missing.txt" /\
  _message (self (snd (SMTPClient.send_email fs_notes relay_accepting
                         (Some with_missing) fresh))) =
    attach_all (attachment_parts fs_notes ["notes.txt"])
      (composed (sender_email_address (_cfg (self fresh))) with_missing
         (_message (self fresh))).
Proof.
  split; [exact with_missing_well_formed|].
  split; [exact fs_notes_readable|].
  split; [exact fs_notes_missing|].
  apply (send_email_failure_keeps_parts fs_notes relay_accepting with_missing
           fresh ["notes.txt"] [] "missing.txt").
  - exact with_missing_well_formed.
  - reflexivity.
  - exact fs_notes_readable.
  - exact fs_notes_missing.
Defined.

(** ** What the handlers report *)

(** X13. When the relay accepts the connection, the login does not find
    the connection lost and QUIT is answered with a code other than 221,
    the line that [send_email] prints is the one of the exception of QUIT,
    with the reply of the relay, under [Error with SMTP Operation.]: what
    happened before in the session, a rejected login included, is not
    reported. *)
Theorem send_email_quit_error_masks (fs : FileSystem) (relay : Relay)
    (m : EmailMessage) (s : State) (reply : string) :
  well_formed m -> Forall (readable fs) (attachments m) ->
  on_connect relay = None -> login_lost relay = false ->
  on_quit relay = QuitBadCode reply ->
  SMTPClient.send_email fs relay (Some m) s =
    (Ok PyNone,
     {| self := self (after_send fs m s);
        wire := wire s ++
          [Connect (smtp_server (_cfg (self s)))
                   (smtp_port (_cfg (self s)));
           Login (sender_email_address (_cfg (self s)))
                 (google_smtp_app_passwd (_cfg (self s)));
           Quit; Close];
        stdout := stdout s ++
          ["Error with SMTP Operation. " +:+
           "<class 'smtplib.SMTPResponseException'>: " +:+ reply] |}).
Proof.
  intros Hm Hfiles Hc Hl Hq.
  rewrite (send_email_reaches_deliver _ _ _ _ Hm Hfiles).
  unfold bind at 1. rewrite deliver_run.
  unfold session_outcome. rewrite Hc, Hl, Hq. reflexivity.
Qed.

(** A relay that rejects the login and then answers QUIT badly. *)
Lemma send_email_quit_error_masks_witness :
  well_formed hello /\
  login_lost relay_rejecting_then_bad_quit = false /\
  SMTPClient.send_email fs_empty relay_rejecting_then_bad_quit
    (Some hello) fresh =
    (Ok PyNone,
     {| self := self (after_send fs_empty hello fresh);
        wire := wire fresh ++
          [Connect (smtp_server (_cfg (self fresh)))
                   (smtp_port (_cfg (self fresh)));
           Login (sender_email_address (_cfg (self fresh)))
                 (google_smtp_app_passwd (_cfg (self fresh)));
           Quit; Close];
        stdout := stdout fresh ++
          ["Error with SMTP Operation. " +:+
           "<class 'smtplib.SMTPResponseException'>: " +:+
           "(500, b'nope')"] |}).
Proof.
  split; [exact hello_well_formed|]. split; [reflexivity|].
  apply (send_email_quit_error_masks fs_empty relay_rejecting_then_bad_quit
           hello fresh "(500, b'nope')").
  - exact hello_well_formed.
  - constructor.
  - reflexivity.
  - reflexivity.
  - reflexivity.
Defined.

(** An exception outside the classes of smtplib is taken by the last
    clause. *)
Lemma handlers_generic (e : exn) (s : State) :
  isinstance e SMTPException = false ->
  isinstance e Exception_ = true ->
  SMTPClient.handlers e s =
    print ("Exception raised in SMTPClient.send_email() instance. " +:+
           exc_msg e) s.
Proof.
  destruct e as [c msg]. destruct c; cbn; intros H1 H2;
    try discriminate; reflexivity.
Qed.

(** smtplib closes the socket itself only for exceptions of its own. *)
Lemma not_smtp_not_refused (e : exn) :
  isinstance e SMTPException = false -> refused_greeting e = false.
Proof.
  destruct e as [c msg].
  destruct c; intros H; try reflexivity; vm_compute in H; discriminate.
Qed.

(** X14. A failure to connect that is no smtplib exception (a refused
    connection, a name that does not resolve, a failed handshake: plain
    [OSError]s) is not reported by the clause [Error Connecting to
    server.], which is for [SMTPConnectError] alone, but by the last
    clause, with the text of the exception and without its class. The call
    returns [None] after the one attempt. *)
Theorem send_email_socket_error (fs : FileSystem) (relay : Relay)
    (m : EmailMessage) (s : State) (e : exn) :
  well_formed m -> Forall (readable fs) (attachments m) ->
  on_connect relay = Some e ->
  isinstance e SMTPException = false ->
  isinstance e Exception_ = true ->
  SMTPClient.send_email fs relay (Some m) s =
    (Ok PyNone,
     {| self := self (after_send fs m s);
        wire := wire s ++
          [Connect (smtp_server (_cfg (self s))) (smtp_port (_cfg (self s)))];
        stdout := stdout s ++
          ["Exception raised in SMTPClient.send_email() instance. " +:+
           exc_msg e] |}).
Proof.
  intros Hm Hfiles Hc Hsmtp Hexc.
  rewrite (send_email_reaches_deliver _ _ _ _ Hm Hfiles).
  unfold bind at 1. rewrite deliver_run.
  unfold session_outcome. rewrite Hc, (not_smtp_not_refused _ Hsmtp).
  cbn [fst snd]. rewrite (handlers_generic _ _ Hsmtp Hexc). reflexivity.
Qed.

(** A relay that cannot be reached. *)
Lemma send_email_socket_error_witness :
  well_formed hello /\
  SMTPClient.send_email fs_empty
    {| on_connect := Some (Exc OSError "[Errno 111] Connection refused");
       on_login := None; on_sendmail := None; on_quit := QuitOk |}
    (Some hello) fresh =
    (Ok PyNone,
     {| self := self (after_send fs_empty hello fresh);
        wire := wire fresh ++
          [Connect (smtp_server (_cfg (self fresh)))
                   (smtp_port (_cfg (self fresh)))];
        stdout := stdout fresh ++
          ["Exception raised in SMTPClient.send_email() instance. " +:+
           exc_msg (Exc OSError "[Errno 111] Connection refused")] |}).
Proof.
  split; [exact hello_well_formed|].
  apply (send_email_socket_error fs_empty
           {| on_connect := Some (Exc OSError "[Errno 111] Connection refused");
              on_login := None; on_sendmail := None; on_quit := QuitOk |}
           hello fresh (Exc OSError "[Errno 111] Connection refused")).
  - exact hello_well_formed.
  - constructor.
  - reflexivity.
  - reflexivity.
  - reflexivity.
Defined.

(** ** The facade over the client of the module *)

(** X11. Over the [SMTPClient] that [EmailClient.__init__] builds, the
    facade is the client: construction gives the same object, and
    [send_email] gives the same result, raises the same exception and
    leaves the same state, for every argument, file system, relay and
    state. *)
Theorem facade_adds_nothing (environ : gmap string string)
    (fs : FileSystem) (relay : Relay) (arg : option EmailMessage)
    (s : State) :
  EmailClient.__init__ environ = SMTPClient.new environ /\
  EmailClient.send_email fs relay arg s =
    SMTPClient.send_email fs relay arg s.
Proof.
  split; [reflexivity|].
  unfold EmailClient.send_email, EmailClient.send_email_via, bind.
  destruct (SMTPClient.send_email fs relay arg s) as [[v|e] s'] eqn:Hrun.
  - apply SMTPClient_send_email_None in Hrun. by subst.
  - reflexivity.
Qed.

(** ** base64: the way back *)

Lemma value_digit (n : N) :
  (n < 64)%N ->
  binascii.value (base64.digit n) = Some n /\
  Ascii.eqb (base64.digit n) "="%char = false.
Proof.
  intros Hn.
  assert (Hall : forallb (fun k =>
            match binascii.value (base64.digit (N.of_nat k)) with
            | Some v => N.eqb v (N.of_nat k) | None => false end
            && negb (Ascii.eqb (base64.digit (N.of_nat k)) "="%char))
            (seq 0 64) = true) by (vm_compute; reflexivity).
  rewrite forallb_forall in Hall.
  specialize (Hall (N.to_nat n)).
  rewrite N2Nat.id in Hall.
  assert (Hin : In (N.to_nat n) (seq 0 64)) by (apply in_seq; lia).
  specialize (Hall Hin). apply andb_true_iff in Hall as [H1 H2].
  destruct (binascii.value (base64.digit n)) as [v|]; [|discriminate].
  apply N.eqb_eq in H1. apply negb_true_iff in H2. by subst.
Qed.

Lemma byte_of_to_N (b : Byte.byte) : binascii.byte_of (Byte.to_N b) = b.
Proof. unfold binascii.byte_of. by rewrite Byte.of_to_N. Qed.

Ltac Zify.zify_post_hook ::= Z.to_euclidean_division_equations.

Lemma loop_digit (n : N) (s : string) (q : nat) (l : N) (p : nat)
    (out : list Byte.byte) :
  (n < 64)%N ->
  binascii.a2b_loop (String (base64.digit n) s) q l p out =
    match q with
    | 0 => binascii.a2b_loop s 1 n 0 out
    | 1 => binascii.a2b_loop s 2 (n mod 16)%N 0
             (out ++ [binascii.byte_of (l * 4 + n / 16)%N])
    | 2 => binascii.a2b_loop s 3 (n mod 4)%N 0
             (out ++ [binascii.byte_of (l * 16 + n / 4)%N])
    | _ => binascii.a2b_loop s 0 0%N 0
             (out ++ [binascii.byte_of (l * 64 + n)%N])
    end.
Proof.
  intros Hn. destruct (value_digit n Hn) as [Hv He].
  cbn [binascii.a2b_loop]. by rewrite He, Hv.
Qed.

Lemma quads_triple (a b c : Byte.byte) (rest : list Byte.byte) :
  base64.quads (a :: b :: c :: rest) =
    String (base64.digit (Byte.to_N a / 4)%N)
      (String (base64.digit ((Byte.to_N a mod 4) * 16 + Byte.to_N b / 16)%N)
         (String (base64.digit ((Byte.to_N b mod 16) * 4 +
                                Byte.to_N c / 64)%N)
            (String (base64.digit (Byte.to_N c mod 64)%N)
               (base64.quads rest)))).
Proof. reflexivity. Qed.

Lemma append_String (c : ascii) (s t : string) :
  String c s +:+ t = String c (s +:+ t).
Proof. reflexivity. Qed.

Lemma loop_triple (a b c : Byte.byte) (rest : list Byte.byte) (t : string)
    (out : list Byte.byte) :
  binascii.a2b_loop (base64.quads (a :: b :: c :: rest) +:+ t) 0 0%N 0 out =
    binascii.a2b_loop (base64.quads rest +:+ t) 0 0%N 0 (out ++ [a; b; c]).
Proof.
  rewrite quads_triple, !append_String.
  pose proof (Byte.to_N_bounded a) as Ha.
  pose proof (Byte.to_N_bounded b) as Hb.
  pose proof (Byte.to_N_bounded c) as Hc.
  rewrite !loop_digit by lia.
  rewrite <- !app_assoc. cbn [app].
  set (x := Byte.to_N a) in *. set (y := Byte.to_N b) in *.
  set (z := Byte.to_N c) in *.
  replace (x / 4 * 4 + (x mod 4 * 16 + y / 16) / 16)%N with x by lia.
  replace ((x mod 4 * 16 + y / 16) mod 16 * 16 +
           (y mod 16 * 4 + z / 64) / 4)%N with y by lia.
  replace ((y mod 16 * 4 + z / 64) mod 4 * 64 + z mod 64)%N with z by lia.
  subst x y z. by rewrite !byte_of_to_N.
Qed.

Lemma loop_one (a : Byte.byte) (t : string) (out : list Byte.byte) :
  binascii.a2b_loop (base64.quads [a] +:+ t) 0 0%N 0 out = Some (out ++ [a]).
Proof.
  change (base64.quads [a]) with
    (String (base64.digit (Byte.to_N a / 4)%N)
       (String (base64.digit ((Byte.to_N a mod 4) * 16)%N) "==")).
  rewrite !append_String.
  pose proof (Byte.to_N_bounded a) as Ha.
  rewrite !loop_digit by lia.
  cbn [binascii.a2b_loop Ascii.eqb Bool.eqb Nat.leb Nat.add].
  set (x := Byte.to_N a) in *.
  replace (x / 4 * 4 + x mod 4 * 16 / 16)%N with x by lia.
  subst x. by rewrite byte_of_to_N.
Qed.

Lemma loop_two (a b : Byte.byte) (t : string) (out : list Byte.byte) :
  binascii.a2b_loop (base64.quads [a; b] +:+ t) 0 0%N 0 out =
    Some (out ++ [a; b]).
Proof.
  change (base64.quads [a; b]) with
    (String (base64.digit (Byte.to_N a / 4)%N)
       (String (base64.digit ((Byte.to_N a mod 4) * 16 + Byte.to_N b / 16)%N)
          (String (base64.digit ((Byte.to_N b mod 16) * 4)%N) "="))).
  rewrite !append_String.
  pose proof (Byte.to_N_bounded a) as Ha.
  pose proof (Byte.to_N_bounded b) as Hb.
  rewrite !loop_digit by lia.
  cbn [binascii.a2b_loop Ascii.eqb Bool.eqb Nat.leb Nat.add].
  rewrite <- !app_assoc. cbn [app].
  set (x := Byte.to_N a) in *. set (y := Byte.to_N b) in *.
  replace (x / 4 * 4 + (x mod 4 * 16 + y / 16) / 16)%N with x by lia.
  replace ((x mod 4 * 16 + y / 16) mod 16 * 16 + y mod 16 * 4 / 4)%N
    with y by lia.
  subst x y. by rewrite !byte_of_to_N.
Qed.

Lemma list_ind3 {A} (P : list A -> Prop) :
  P [] -> (forall a, P [a]) -> (forall a b, P [a; b]) ->
  (forall a b c l, P l -> P (a :: b :: c :: l)) ->
  forall l, P l.
Proof.
  intros H0 H1 H2 H3 l.
  assert (H : P l /\ (forall a, P (a :: l)) /\ (forall a b, P (a :: b :: l))).
  { induction l as [|x l (IH0 & IH1 & IH2)].
    - by repeat split.
    - split; [apply IH1|]. split; [intros a; apply IH2|].
      intros a b. by apply H3. }
  apply H.
Qed.

(** Decoding the text of a byte string: when the string is made of whole
    triples the loop goes on after it, and otherwise it ends at the
    padding. *)
Lemma loop_quads (bs : list Byte.byte) (t : string) (out : list Byte.byte) :
  binascii.a2b_loop (base64.quads bs +:+ t) 0 0%N 0 out =
    if (length bs mod 3 =? 0)%nat
    then binascii.a2b_loop t 0 0%N 0 (out ++ bs)
    else Some (out ++ bs).
Proof.
  revert out. induction bs as [|a|a b|a b c l IH] using list_ind3; intros out.
  - cbn. by rewrite app_nil_r.
  - apply loop_one.
  - apply loop_two.
  - rewrite loop_triple, IH.
    replace (length (a :: b :: c :: l)) with (length l + 1 * 3)%nat
      by (cbn [length]; lia).
    rewrite Nat.Div0.mod_add.
    rewrite <- app_assoc. reflexivity.
Qed.

Lemma string_app_assoc (a b c : string) : (a +:+ b) +:+ c = a +:+ (b +:+ c).
Proof.
  induction a as [|x a IH]; [reflexivity|].
  rewrite !append_String. by f_equal.
Qed.

Lemma string_app_nil_r (a : string) : a +:+ "" = a.
Proof.
  induction a as [|x a IH]; [reflexivity|].
  rewrite append_String. by f_equal.
Qed.

Lemma string_concat_cons (x : string) (xs : list string) :
  String.concat "" (x :: xs) = x +:+ String.concat "" xs.
Proof.
  destruct xs as [|y ys]; cbn [String.concat].
  - by rewrite string_app_nil_r.
  - reflexivity.
Qed.

(** The newline that ends a line of the text is no digit: the loop passes
    over it. *)
Lemma loop_newline (t : string) (q : nat) (l : N) (p : nat)
    (out : list Byte.byte) :
  binascii.a2b_loop (base64.newline +:+ t) q l p out =
    binascii.a2b_loop t q l p out.
Proof. reflexivity. Qed.

Lemma loop_pieces (fuel : nat) :
  forall (s out : list Byte.byte),
    length s <= fuel ->
    binascii.a2b_loop
      (String.concat "" (map base64.b2a_base64 (base64.pieces fuel s)))
      0 0%N 0 out = Some (out ++ s).
Proof.
  induction fuel as [|fuel IH]; intros s out Hlen.
  - destruct s; [|cbn in Hlen; lia]. cbn. by rewrite app_nil_r.
  - destruct s as [|b s]; [cbn; by rewrite app_nil_r|].
    set (bs := b :: s) in *.
    change (base64.pieces (S fuel) bs) with
      (take base64.MAXBINSIZE bs ::
       base64.pieces fuel (drop base64.MAXBINSIZE bs)).
    cbn [map]. rewrite string_concat_cons. unfold base64.b2a_base64 at 1.
    rewrite string_app_assoc, loop_quads.
    destruct (length (take base64.MAXBINSIZE bs) mod 3 =? 0)%nat eqn:Hmod.
    + rewrite loop_newline, IH.
      * by rewrite <- app_assoc, take_drop.
      * rewrite length_drop. subst bs. cbn [length] in *.
        unfold base64.MAXBINSIZE. lia.
    + assert (Hshort : length bs < base64.MAXBINSIZE).
      { destruct (decide (length bs < base64.MAXBINSIZE)) as [?|Hge];
          [done|].
        rewrite length_take, Nat.min_l in Hmod
          by (unfold base64.MAXBINSIZE in *; lia).
        discriminate. }
      rewrite take_ge by lia. reflexivity.
Qed.

(** Decoding the text that [encodebytes] makes of a byte string gives the
    byte string back. *)
Lemma a2b_encodebytes (s : list Byte.byte) :
  binascii.a2b_base64 (base64.encodebytes s) = Some s.
Proof.
  unfold binascii.a2b_base64, base64.encodebytes.
  by rewrite loop_pieces.
Qed.

(** X15. The payload of the part that the loop attaches for a file is a
    text that [binascii.a2b_base64] decodes to exactly the bytes of the
    file: nothing of an attachment is lost or changed by the encoding. *)
Theorem attachment_payload_decodes (fs : FileSystem) (file : Path)
    (data : list Byte.byte) (s : State) :
  fs !! file = Some (File data) ->
  exists part text,
    SMTPClient.add_attachment fs file s =
      (Ok tt, with_message s (Message_attach (BasePart part)
                                (_message (self s)))) /\
    mb_payload part = StrPayload text /\
    binascii.a2b_base64 text = Some data.
Proof.
  intros Hf. eexists _, _. split; [by apply add_attachment_file|].
  split; [reflexivity|apply a2b_encodebytes].
Qed.

Lemma attachment_payload_decodes_witness :
  fs_notes !! "notes.txt" = Some (File [Byte.x4d; Byte.x61; Byte.x6e]) /\
  exists part text,
    SMTPClient.add_attachment fs_notes "notes.txt" fresh =
      (Ok tt, with_message fresh (Message_attach (BasePart part)
                                    (_message (self fresh)))) /\
    mb_payload part = StrPayload text /\
    binascii.a2b_base64 text = Some [Byte.x4d; Byte.x61; Byte.x6e].
Proof.
  assert (Hf : fs_notes !! "notes.txt" =
               Some (File [Byte.x4d; Byte.x61; Byte.x6e]))
    by (vm_compute; reflexivity).
  split; [exact Hf|].
  exact (attachment_payload_decodes fs_notes "notes.txt"
           [Byte.x4d; Byte.x61; Byte.x6e] fresh Hf).
Defined.

(** A text that ends inside a group of four digits is refused. *)
Example a2b_base64_incomplete : binascii.a2b_base64 "TWF" = None.
Proof. reflexivity. Qed.

(** ** What a call prints *)

Lemma emits_ret {A} (P : string -> Prop) (a : A) : emits P (ret a).
Proof. by intros s Hs. Qed.

Lemma emits_print (P : string -> Prop) (line : string) :
  P line -> emits P (print line).
Proof.
  intros Hl s Hs. cbn. apply Forall_app. split; [exact Hs|by constructor].
Qed.

(** Sequencing, with what is known of the value that the first part
    returns. *)
Lemma emits_bind {A B} (P : string -> Prop) (Q : A -> Prop)
    (m : M A) (k : A -> M B) :
  (forall s a s', m s = (Ok a, s') -> Q a) ->
  emits P m -> (forall a, Q a -> emits P (k a)) -> emits P (bind m k).
Proof.
  intros HQ Hm Hk s Hs. unfold bind. specialize (Hm s Hs).
  destruct (m s) as [[a|e] s1] eqn:Hrun; cbn in Hm |- *.
  - apply Hk; [by eapply HQ|exact Hm].
  - exact Hm.
Qed.

Lemma emits_seq {A B} (P : string -> Prop) (m : M A) (k : A -> M B) :
  emits P m -> (forall a, emits P (k a)) -> emits P (bind m k).
Proof.
  intros Hm Hk. apply (emits_bind P (fun _ => True)); by auto.
Qed.

(** A handler prints nothing or one line that begins with the text of its
    clause. *)
Lemma handlers_stdout (e : exn) (s : State) :
  stdout (snd (SMTPClient.handlers e s)) = stdout s \/
  exists line,
    handler_line line /\
    stdout (snd (SMTPClient.handlers e s)) = stdout s ++ [line].
Proof.
  unfold SMTPClient.handlers, handler_line, handler_prefixes.
  repeat match goal with
         | |- context [if ?b then _ else _] => destruct b
         end;
    try (right; eexists; split; [|reflexivity]; eexists _, _;
         split; [|reflexivity];
         rewrite !elem_of_cons; by auto 10).
  by left.
Qed.

Lemma deliver_stdout (relay : Relay) (s : State) :
  stdout (snd (SMTPClient.deliver relay s)) = stdout s \/
  exists line,
    handler_line line /\
    stdout (snd (SMTPClient.deliver relay s)) = stdout s ++ [line].
Proof.
  rewrite deliver_run.
  match goal with
  | |- context [SMTPClient.handlers ?e ?st] =>
      destruct (handlers_stdout e st) as [Hout|(line & Hline & Hout)];
      rewrite Hout; [by left|right; by exists line]
  end.
Qed.

(** [send_email] prints nothing or one line of a handler. *)
Lemma send_email_stdout (fs : FileSystem) (relay : Relay)
    (arg : option EmailMessage) (s : State) :
  stdout (snd (SMTPClient.send_email fs relay arg s)) = stdout s \/
  exists line,
    handler_line line /\
    stdout (snd (SMTPClient.send_email fs relay arg s)) = stdout s ++ [line].
Proof.
  destruct (send_email_cases fs relay arg s)
    as [(e & s1 & -> & _ & Ho & _) | (s1 & (_ & Ho & _) & ->)].
  - by left.
  - assert (Hsnd : snd ((SMTPClient.deliver relay ;;; ret PyNone) s1) =
                   snd (SMTPClient.deliver relay s1)).
    { unfold bind. by destruct (SMTPClient.deliver relay s1) as [[[]|?] ?]. }
    rewrite Hsnd, <- Ho. apply deliver_stdout.
Qed.

Lemma emits_facade (P : string -> Prop) (fs : FileSystem) (relay : Relay)
    (arg : option EmailMessage) :
  (forall line, handler_line line -> P line) ->
  emits P (EmailClient.send_email fs relay arg).
Proof.
  intros HP s Hs. rewrite facade_agrees_with_SMTPClient.
  destruct (send_email_stdout fs relay arg s)
    as [->|(line & Hline & ->)]; [exact Hs|].
  apply Forall_app. split; [exact Hs|]. constructor; [by apply HP|constructor].
Qed.

Lemma facade_returns_None (fs : FileSystem) (relay : Relay)
    (arg : option EmailMessage) (s s' : State) (v : pyval) :
  EmailClient.send_email fs relay arg s = (Ok v, s') -> v = PyNone.
Proof.
  rewrite facade_agrees_with_SMTPClient. apply SMTPClient_send_email_None.
Qed.

(** ** The script *)

(** No line of a handler is one of the two lines that report a mail as
    sent. *)
Lemma handler_line_not_pass (line : string) :
  handler_line line ->
  line <> "Email to Myself PASS" /\ line <> "Email to Manasi PASS".
Proof.
  intros (prefix & rest & Hin & ->). unfold handler_prefixes in Hin.
  rewrite !elem_of_cons, elem_of_nil in Hin.
  destruct Hin as [->|[->|[->|[->|[->|[]]]]]]; split; intros Heq;
    cbn in Heq; discriminate.
Qed.

(** X16. Run as a script, the module never prints [Email to Myself PASS]
    nor [Email to Manasi PASS], whatever the environment, the files and
    the relay: the facade returns [None] for every call that returns, and
    the script reads that as a failure. *)
Theorem script_never_reports_success (environ : gmap string string)
    (fs : FileSystem) (relay : Relay) :
  ("Email to Myself PASS" ∉ stdout (snd (main environ fs relay))) /\
  ("Email to Manasi PASS" ∉ stdout (snd (main environ fs relay))).
Proof.
  set (P := fun line : string =>
              line <> "Email to Myself PASS" /\
              line <> "Email to Manasi PASS").
  assert (Hall : Forall P (stdout (snd (main environ fs relay)))).
  { unfold main.
    assert (Hscript : emits P (script fs relay)).
    { unfold script. cbv zeta.
      repeat first
        [ apply emits_print; split; discriminate
        | apply (emits_bind P (fun r => r = PyNone));
            [ intros ? ? ?; apply facade_returns_None
            | apply emits_facade; intros ?; apply handler_line_not_pass
            | intros ? -> ]
        | apply emits_seq; [|intros ?]
        | apply emits_ret ]. }
    apply Hscript. constructor. }
  rewrite Forall_forall in Hall.
  split; intros Hin; by destruct (Hall _ Hin).
Qed.

Lemma my_email_well_formed : well_formed my_email_contents.
Proof. repeat split; discriminate. Qed.

Lemma manasi_email_well_formed : well_formed manasi_email_contents.
Proof. repeat split; discriminate. Qed.

(** The facade on a well-formed message whose attachments can be read, with
    a relay whose failures are caught: one line is printed and [None]
    comes back. *)
Lemma facade_run (fs : FileSystem) (relay : Relay) (m : EmailMessage)
    (s : State) :
  well_formed m -> Forall (readable fs) (attachments m) ->
  relay_raises_exceptions relay ->
  exists s' line,
    EmailClient.send_email fs relay (Some m) s = (Ok PyNone, s') /\
    handler_line line /\ stdout s' = stdout s ++ [line].
Proof.
  intros Hm Hfiles Hr. rewrite facade_agrees_with_SMTPClient.
  assert (Hok : fst (SMTPClient.send_email fs relay (Some m) s) = Ok PyNone).
  { rewrite (send_email_reaches_deliver _ _ _ _ Hm Hfiles).
    destruct (deliver_total relay (after_send fs m s) Hr)
      as (s' & line & Hd & _).
    unfold bind. by rewrite Hd. }
  destruct (SMTPClient.send_email fs relay (Some m) s) as [r s'] eqn:Hrun.
  cbn in Hok. subst r. exists s'.
  pose proof (send_email_stdout fs relay (Some m) s) as Hout.
  rewrite Hrun in Hout. cbn in Hout.
  destruct Hout as [Hsame|(line & Hline & Hout)].
  - exfalso.
    rewrite (send_email_reaches_deliver _ _ _ _ Hm Hfiles) in Hrun.
    destruct (deliver_total relay (after_send fs m s) Hr)
      as (s2 & line & Hd & _ & Hout2 & _).
    unfold bind in Hrun. rewrite Hd in Hrun. unfold ret in Hrun.
    injection Hrun as <-. rewrite Hout2 in Hsame.
    apply (f_equal length) in Hsame. rewrite length_app in Hsame.
    cbn in Hsame. unfold after_send, with_message in Hsame. cbn in Hsame. lia.
  - by exists line.
Qed.

(** X17. Run as a script where [test_attachment.txt] is a readable file and
    the failures of the relay are exceptions that are caught, the module
    runs to its end and reports both mails as failed, whatever the relay
    did, a relay that accepts everything included. Its output is the
    three lines of the head, for each mail one line of a handler and the
    line of the failure, the three lines of the end and the two lines
    about the list. *)
Theorem script_reports_failures (environ : gmap string string)
    (fs : FileSystem) (relay : Relay) (data : list Byte.byte) :
  fs !! "test_attachment.txt" = Some (File data) ->
  relay_raises_exceptions relay ->
  exists line1 line2 s',
    main environ fs relay = (Ok tt, s') /\
    handler_line line1 /\ handler_line line2 /\
    stdout s' =
      [ "=============================";
        "       Start SMTP test       ";
        "=============================";
        line1;
        "Email to myself falied";
        line2;
        "Email to manasi failed";
        "=============================";
        "       END SMTP test         ";
        "=============================";
        "a has stuff";
        "a is not empty" ].
Proof.
  intros Hf Hr.
  assert (Hfiles : Forall (readable fs) ["test_attachment.txt"])
    by (constructor; [by exists data|constructor]).
  unfold main, script. cbv zeta.
  unfold bind at 1. unfold bind at 1. unfold bind at 1. unfold bind at 1.
  cbn [print fst snd].
  match goal with
  | |- context [EmailClient.send_email fs relay (Some my_email_contents) ?st] =>
      destruct (facade_run fs relay my_email_contents st
                  my_email_well_formed Hfiles Hr)
        as (s1 & line1 & -> & Hl1 & Ho1)
  end.
  cbn [py_not]. unfold bind at 1. unfold bind at 1. cbn [print].
  match goal with
  | |- context [EmailClient.send_email fs relay
                  (Some manasi_email_contents) ?st] =>
      destruct (facade_run fs relay manasi_email_contents st
                  manasi_email_well_formed Hfiles Hr)
        as (s2 & line2 & -> & Hl2 & Ho2)
  end.
  cbn in Ho1, Ho2 |- *. eexists line1, line2, _.
  split; [reflexivity|]. split; [exact Hl1|]. split; [exact Hl2|].
  cbn. rewrite Ho2, Ho1. reflexivity.
Qed.

Lemma script_reports_failures_witness :
  fs_script !! "test_attachment.txt" =
    Some (File [Byte.x68; Byte.x69; Byte.x0a]) /\
  relay_raises_exceptions relay_accepting /\
  exists line1 line2 s',
    main environ_ok fs_script relay_accepting = (Ok tt, s') /\
    handler_line line1 /\ handler_line line2 /\
    stdout s' =
      [ "=============================";
        "       Start SMTP test       ";
        "=============================";
        line1;
        "Email to myself falied";
        line2;
        "Email to manasi failed";
        "=============================";
        "       END SMTP test         ";
        "=============================";
        "a has stuff";
        "a is not empty" ].
Proof.
  assert (Hf : fs_script !! "test_attachment.txt" =
               Some (File [Byte.x68; Byte.x69; Byte.x0a]))
    by (vm_compute; reflexivity).
  split; [exact Hf|]. split; [exact I|].
  exact (script_reports_failures environ_ok fs_script relay_accepting
           [Byte.x68; Byte.x69; Byte.x0a] Hf I).
Defined.

(** X18. Run as a script where [test_attachment.txt] does not exist, the
    module prints the three lines of the head and ends with the
    [FileNotFoundError] of the first mail: nothing went to the network and
    no line about a mail is printed. *)
Theorem script_missing_attachment (environ : gmap string string)
    (fs : FileSystem) (relay : Relay) :
  fs !! "test_attachment.txt" = None ->
  exists s',
    main environ fs relay =
      (Raise (Exc FileNotFoundError
                "Could not find file: test_attachment.txt"), s') /\
    wire s' = [] /\
    stdout s' =
      [ "=============================";
        "       Start SMTP test       ";
        "=============================" ].
Proof.
  intros Hf.
  assert (Hbad : ~ readable fs "test_attachment.txt")
    by (intros [data Hd]; pose proof (eq_trans (eq_sym Hf) Hd); discriminate).
  unfold main, script. cbv zeta.
  unfold bind at 1. unfold bind at 1. unfold bind at 1. unfold bind at 1.
  cbn [print fst snd]. rewrite facade_agrees_with_SMTPClient.
  match goal with
  | |- context [SMTPClient.send_email fs relay (Some my_email_contents) ?st] =>
      destruct (send_email_stops_at fs relay my_email_contents st
                  [] [] "test_attachment.txt" my_email_well_formed
                  eq_refl (List.Forall_nil _) Hbad)
        as (e & s' & -> & Hw & Ho & He & _)
  end.
  rewrite (He Hf). exists s'. split; [reflexivity|]. by split.
Qed.

Lemma script_missing_attachment_witness :
  fs_empty !! "test_attachment.txt" = None /\
  exists s',
    main environ_ok fs_empty relay_accepting =
      (Raise (Exc FileNotFoundError
                "Could not find file: test_attachment.txt"), s') /\
    wire s' = [] /\
    stdout s' =
      [ "=============================";
        "       Start SMTP test       ";
        "=============================" ].
Proof.
  assert (Hf : fs_empty !! "test_attachment.txt" = None) by reflexivity.
  split; [exact Hf|].
  exact (script_missing_attachment environ_ok fs_empty relay_accepting Hf).
Defined.

(** The script with the attachment in place and a relay that accepts
    everything, run in full. *)
Example script_run :
  stdout (snd (main environ_ok fs_script relay_accepting)) =
    [ "=============================";
      "       Start SMTP test       ";
      "=============================";
      "Exception raised in SMTPClient.send_email() instance. " +:+
      "name 'receiver_email' is not defined";
      "Email to myself falied";
      "Exception raised in SMTPClient.send_email() instance. " +:+
      "name 'receiver_email' is not defined";
      "Email to manasi failed";
      "=============================";
      "       END SMTP test         ";
      "=============================";
      "a has stuff";
      "a is not empty" ].
Proof. vm_compute. reflexivity. Qed.

(** ** More on the loop and on what is not caught *)

Lemma attachment_parts_length (fs : FileSystem) (files : list Path) :
  Forall (readable fs) files ->
  length (attachment_parts fs files) = length files.
Proof.
  induction 1 as [|file files [data Hf] _ IH]; [reflexivity|].
  rewrite (attachment_parts_cons _ _ _ _ Hf). cbn [length]. by rewrite IH.
Qed.

Lemma attachment_parts_lookup (fs : FileSystem) (files : list Path)
    (i : nat) (file : Path) (data : list Byte.byte) :
  Forall (readable fs) files ->
  files !! i = Some file -> fs !! file = Some (File data) ->
  attachment_parts fs files !! i = Some (attachment_part file data).
Proof.
  intros Hall. revert i.
  induction Hall as [|f files [d Hf] _ IH]; intros i Hi Hdata.
  - by rewrite lookup_nil in Hi.
  - rewrite (attachment_parts_cons _ _ _ _ Hf). destruct i as [|i].
    + cbn in Hi |- *. injection Hi as ->.
      pose proof (eq_trans (eq_sym Hf) Hdata) as Heq.
      by injection Heq as ->.
    + cbn in Hi |- *. by apply IH.
Qed.

(** X19. When every file of the list is an existing readable file,
    [_add_attachments] does not raise and attaches exactly one part per
    path, in the order of the list and after the parts that were there: the
    [i]-th new part is the part of the [i]-th path, a path that occurs
    twice is attached twice, and headers, network and output are as
    before. *)
Theorem add_attachments_one_part_each (fs : FileSystem) (files : list Path)
    (s : State) :
  Forall (readable fs) files ->
  exists s',
    SMTPClient._add_attachments fs files s = (Ok tt, s') /\
    same_io s s' /\
    mp_headers (_message (self s')) = mp_headers (_message (self s)) /\
    length (mp_payload (_message (self s'))) =
      length (mp_payload (_message (self s))) + length files /\
    forall i file data,
      files !! i = Some file -> fs !! file = Some (File data) ->
      mp_payload (_message (self s')) !!
        (length (mp_payload (_message (self s))) + i) =
        Some (attachment_part file data).
Proof.
  intros Hall. eexists. split; [by apply add_attachments_files|].
  split; [by repeat split|]. split; [reflexivity|].
  cbn [self _message with_message attach_all mp_payload]. split.
  - by rewrite length_app, attachment_parts_length.
  - intros i file data Hi Hdata.
    rewrite lookup_app_r, Nat.add_comm, Nat.add_sub by lia.
    by apply attachment_parts_lookup.
Qed.

Lemma add_attachments_one_part_each_witness :
  Forall (readable fs_notes) ["notes.txt"; "notes.txt"] /\
  exists s',
    SMTPClient._add_attachments fs_notes ["notes.txt"; "notes.txt"] fresh =
      (Ok tt, s') /\
    same_io fresh s' /\
    mp_headers (_message (self s')) = mp_headers (_message (self fresh)) /\
    length (mp_payload (_message (self s'))) =
      length (mp_payload (_message (self fresh))) +
      length ["notes.txt"; "notes.txt"] /\
    forall i file data,
      ["notes.txt"; "notes.txt"] !! i = Some file ->
      fs_notes !! file = Some (File data) ->
      mp_payload (_message (self s')) !!
        (length (mp_payload (_message (self fresh))) + i) =
        Some (attachment_part file data).
Proof.
  assert (Hall : Forall (readable fs_notes) ["notes.txt"; "notes.txt"]).
  { pose proof fs_notes_readable as Hone.
    apply Forall_cons in Hone as [Hone _]. by repeat constructor. }
  split; [exact Hall|].
  exact (add_attachments_one_part_each fs_notes ["notes.txt"; "notes.txt"]
           fresh Hall).
Defined.

(** X20. An exception of the login that [except Exception] does not catch
    (an interrupt, which is a [BaseException] only) goes through
    [send_email] to the caller: the session is closed by QUIT first, and
    no handler prints anything. *)
Theorem send_email_uncaught (fs : FileSystem) (relay : Relay)
    (m : EmailMessage) (s : State) (e : exn) :
  well_formed m -> Forall (readable fs) (attachments m) ->
  on_connect relay = None -> on_login relay = Some e ->
  (forall reply, on_quit relay <> QuitBadCode reply) ->
  isinstance e Exception_ = false ->
  SMTPClient.send_email fs relay (Some m) s =
    (Raise e,
     {| self := self (after_send fs m s);
        wire := wire s ++
          [Connect (smtp_server (_cfg (self s))) (smtp_port (_cfg (self s)));
           Login (sender_email_address (_cfg (self s)))
                 (google_smtp_app_passwd (_cfg (self s)));
           Quit; Close];
        stdout := stdout s |}).
Proof.
  intros Hm Hfiles Hc Hl Hq He.
  rewrite (send_email_reaches_deliver _ _ _ _ Hm Hfiles).
  unfold bind at 1. rewrite deliver_run.
  assert (Hh : forall st, SMTPClient.handlers e st = (Raise e, st)).
  { intros st. unfold SMTPClient.handlers.
    destruct e as [c msg]. destruct c; try discriminate. reflexivity. }
  assert (Hlost : lost_connection e = false).
  { destruct e as [c msg]. destruct c; try discriminate. reflexivity. }
  unfold session_outcome, login_lost, body_exn. rewrite Hc, Hl, Hlost.
  destruct (on_quit relay) as [|reply|] eqn:Hquit;
    [|by destruct (Hq reply)|]; cbn [fst snd]; by rewrite Hh.
Qed.

Lemma send_email_uncaught_witness :
  well_formed hello /\
  SMTPClient.send_email fs_empty
    {| on_connect := None;
       on_login := Some (Exc BaseException_ "KeyboardInterrupt");
       on_sendmail := None; on_quit := QuitOk |}
    (Some hello) fresh =
    (Raise (Exc BaseException_ "KeyboardInterrupt"),
     {| self := self (after_send fs_empty hello fresh);
        wire := wire fresh ++
          [Connect (smtp_server (_cfg (self fresh)))
                   (smtp_port (_cfg (self fresh)));
           Login (sender_email_address (_cfg (self fresh)))
                 (google_smtp_app_passwd (_cfg (self fresh)));
           Quit; Close];
        stdout := stdout fresh |}).
Proof.
  split; [exact hello_well_formed|].
  apply (send_email_uncaught fs_empty
           {| on_connect := None;
              on_login := Some (Exc BaseException_ "KeyboardInterrupt");
              on_sendmail := None; on_quit := QuitOk |}
           hello fresh (Exc BaseException_ "KeyboardInterrupt")).
  - exact hello_well_formed.
  - constructor.
  - reflexivity.
  - reflexivity.
  - discriminate.
  - reflexivity.
Defined.
